(** * tensor_utils: utilities for nested structures of tensors

    A shallow embedding of
    [tensorflow_federated/python/tensorflow_libs/tensor_utils.py]
    and the properties of its functions.

    Python values are modelled by the data the functions inspect; a raised
    exception is the [Raise] case of [result].  The primitives of the
    TensorFlow engine that the module calls ([nest], [TensorShape],
    [tf.cond], the variable store) live in modules of their own, named
    after the library objects they stand for. *)

From Stdlib Require Import ZArith String Ascii List Bool Lia.
From Stdlib Require Import Floats.SpecFloat Structures.OrderedTypeEx.
From stdpp Require Import base option list gmap strings sorting pretty.

Set Warnings "-register-all,-clear-no-such-hyp".
Local Open Scope Z_scope.

(** ** Exceptions and results *)

(** The outcome of a Python call: a returned value or a raised exception. *)
Inductive result (E A : Type) : Type :=
  | Ok (a : A)
  | Raise (e : E).
Arguments Ok {E A} a.
Arguments Raise {E A} e.

#[global] Instance result_ret {E} : MRet (result E) := λ A a, Ok a.
#[global] Instance result_bind {E} : MBind (result E) := λ A B k r,
  match r with
  | Ok a => k a
  | Raise e => Raise e
  end.

(** ** Tensor shapes *)

(** [tf.Dimension]: [value] is [None] when the size is not known. *)
Record Dimension : Type := { value : option Z }.

(** [tf.TensorShape]: [dims] is [None] for a shape of unknown rank, and a list
    of [Dimension] objects otherwise. *)
Record TensorShape : Type := { dims : option (list Dimension) }.

Inductive shape_exn : Type :=
  | TypeError_expected_tensor   (* raised by [is_scalar] *)
  | ValueError_unknown_rank.    (* raised by iterating a [TensorShape] *)

Module tensor_shape.
(** The [ndims] property: [None] if the rank is unknown, else [len(dims)]. *)
Definition ndims (s : TensorShape) : option nat := length <$> dims s.

(** Iterating a [TensorShape] yields its [Dimension]s; on a shape of
    unknown rank the iteration raises [ValueError]. *)
Definition iter (s : TensorShape) : result shape_exn (list Dimension) :=
  match dims s with
  | None => Raise ValueError_unknown_rank
  | Some ds => Ok ds
  end.

(** [Dimension.__eq__]: [None] if either side is unknown. *)
Definition Dimension_eq (d : Dimension) (n : Z) : option bool :=
  match value d with
  | None => None
  | Some v => Some (v =? n)
  end.

(** Python truth value of the result of [Dimension.__eq__]. *)
Definition truth (o : option bool) : bool := default false o.
End tensor_shape.
Import tensor_shape.

(** [same_dimension(x, y)]; an argument is Python's [None] or a [Dimension]
    object. *)
Definition same_dimension (x y : option Dimension) : bool :=
  match x with
  | None => bool_decide (y = None)
  | Some dx =>
      match y with
      | None => false
      | Some dy => bool_decide (value dx = value dy)
      end
  end.

Arguments same_dimension : simpl never.

(** [same_shape(x, y)]. *)
Definition same_shape (x y : TensorShape) : bool :=
  if negb (bool_decide (ndims x = ndims y)) then false
  else
    match dims x with
    | None => bool_decide (dims y = None)
    | Some xs =>
        match dims y with
        | None => false
        | Some ys =>
            forallb (λ ab, same_dimension (Some ab.1) (Some ab.2)) (zip xs ys)
        end
    end.

(** ** is_scalar *)

(** The arguments [is_scalar] tells apart: an object that
    [tf.contrib.framework.is_tensor] accepts, carrying its static shape, or
    any other Python value (a list, a bool, ...). *)
Inductive scalar_arg : Type :=
  | TensorLike (shape : TensorShape)
  | NotTensor.

Definition is_tensor (a : scalar_arg) : bool :=
  match a with
  | TensorLike _ => true
  | NotTensor => false
  end.

(** Every object accepted by [is_tensor] has a [get_shape] method. *)
Definition get_shape (a : scalar_arg) : option TensorShape :=
  match a with
  | TensorLike s => Some s
  | NotTensor => None
  end.

Definition is_scalar (tensor : scalar_arg) : result shape_exn bool :=
  if negb (is_tensor tensor) then Raise TypeError_expected_tensor
  else
    match get_shape tensor with
    | None => Ok false
    | Some shape =>
        ds ← tensor_shape.iter shape;
        Ok (forallb (λ dim, truth (Dimension_eq dim 1)) ds)
    end.

(** ** Unknown and known dimensions *)

(** A dimension argument is unknown when it is [None] or a [Dimension] whose
    [value] is [None]; it is known with size [n] when it is a [Dimension]
    whose [value] is [n]. *)
Definition dim_unknown (d : option Dimension) : Prop :=
  match d with
  | None => True
  | Some dd => value dd = None
  end.

Definition dim_known (d : option Dimension) (n : Z) : Prop :=
  match d with
  | None => False
  | Some dd => value dd = Some n
  end.

(** "[same_dimension] holds iff both dimensions are unknown, or both are known
    with the same integer value". *)
Definition same_dimension_stated (a b : option Dimension) : Prop :=
  same_dimension a b = true ↔
    (dim_unknown a ∧ dim_unknown b) ∨ (∃ n, dim_known a n ∧ dim_known b n).

(** The dimension sizes a shape declares: none when the rank is unknown. *)
Definition declared_dims (s : TensorShape) : list Dimension :=
  default [] (dims s).

Definition all_dims_one (ds : list Dimension) : bool :=
  bool_decide (Forall (λ d, value d = Some 1) ds).

(** "raises a TypeError when the input is not a tensor, and otherwise returns
    true iff every declared dimension size equals 1". *)
Definition is_scalar_stated (v : scalar_arg) : Prop :=
  match v with
  | NotTensor => is_scalar v = Raise TypeError_expected_tensor
  | TensorLike s => is_scalar v = Ok (all_dims_one (declared_dims s))
  end.

(** ** Python builtins *)

Module python.
(** [sorted] on items whose first component is a string: a stable sort by
    key, in the lexicographic order of the characters' code points. *)
Fixpoint insert_item {V} (x : string * V) (l : list (string * V))
    : list (string * V) :=
  match l with
  | [] => [x]
  | y :: l' =>
      if String.leb x.1 y.1 then x :: l else y :: insert_item x l'
  end.

Definition sorted {V} (items : list (string * V)) : list (string * V) :=
  foldr insert_item [] items.

(** The slices [s[-2:]] and [s[:-2]] of a string. *)
Definition last_two (s : string) : string :=
  substring (String.length s - 2) 2 s.
Definition drop_last_two (s : string) : string :=
  substring 0 (String.length s - 2) s.

(** The [TypeError] of a [reduce] over an empty sequence. *)
Inductive reduce_exn : Type := TypeError_empty_sequence.

(** [functools.reduce(f, l)] without an initial value. *)
Definition functools_reduce {A} (f : A → A → A) (l : list A)
    : result reduce_exn A :=
  match l with
  | [] => Raise TypeError_empty_sequence
  | x :: rest => Ok (foldl f x rest)
  end.
End python.

(** ** Nested structures: [tf.contrib.framework.nest] *)

Inductive seq_kind : Type := PyList | PyTuple.

#[global] Instance seq_kind_eq_dec : EqDecision seq_kind.
Proof. solve_decision. Defined.

(** A structure is a leaf, a list or tuple of structures, or a dict from
    strings to structures, given by its items in iteration order (the keys of
    a dict are distinct). *)
Inductive nested (A : Type) : Type :=
  | Leaf (a : A)
  | Seq (k : seq_kind) (items : list (nested A))
  | Dict (entries : list (string * nested A)).
Arguments Leaf {A} a.
Arguments Seq {A} k items.
Arguments Dict {A} entries.

Module nest.
Inductive exn : Type :=
  | ValueError   (* arrangement, number of elements or keys differ *)
  | TypeError.   (* the container types differ *)

(** Apply [f] to the value of every item, keeping the key. *)
Definition on_values {V W} (f : V → W) (e : string * V) : string * W :=
  (e.1, f e.2).

(** [nest.flatten]: leaves left to right; a dict is visited in the sorted
    order of its keys. *)
Fixpoint flatten {A} (s : nested A) : list A :=
  match s with
  | Leaf a => [a]
  | Seq _ items => concat (map flatten items)
  | Dict entries =>
      concat (map snd (python.sorted (map (on_values flatten) entries)))
  end.

(** [nest.map_structure(f, s)] for one structure. *)
Fixpoint map_structure {A B} (f : A → B) (s : nested A) : nested B :=
  match s with
  | Leaf a => Leaf (f a)
  | Seq k items => Seq k (map (map_structure f) items)
  | Dict entries => Dict (map (on_values (map_structure f)) entries)
  end.

(** Both value iterators advance together; the checks run in order and one
    iterator ending before the other is an error. *)
Fixpoint in_lockstep {B} (checks : list (B → result exn ())) (ys : list B)
    : result exn () :=
  match checks, ys with
  | [], [] => Ok ()
  | c :: checks', y :: ys' => _ ← c y; in_lockstep checks' ys'
  | _, _ => Raise ValueError
  end.

(** [nest.assert_same_structure(nest1, nest2)] with type checking on.  Two
    dicts must have the same set of keys; their values are compared in the
    sorted order of the keys. *)
Fixpoint assert_same_structure {A B} (nest1 : nested A)
    : nested B → result exn () :=
  match nest1 with
  | Leaf _ => λ nest2,
      match nest2 with
      | Leaf _ => Ok ()
      | _ => Raise ValueError
      end
  | Seq k1 items1 => λ nest2,
      match nest2 with
      | Leaf _ => Raise ValueError
      | Seq k2 items2 =>
          if decide (k1 = k2)
          then in_lockstep (map assert_same_structure items1) items2
          else Raise TypeError
      | Dict _ => Raise TypeError
      end
  | Dict entries1 => λ nest2,
      match nest2 with
      | Leaf _ => Raise ValueError
      | Seq _ _ => Raise TypeError
      | Dict entries2 =>
          if decide (map fst (python.sorted entries1) =
                     map fst (python.sorted entries2))
          then in_lockstep
                 (map snd (python.sorted
                    (map (on_values assert_same_structure) entries1)))
                 (map snd (python.sorted entries2))
          else Raise ValueError
      end
  end.
End nest.

(** ** check_nested_equal *)

Inductive check_exn (A : Type) : Type :=
  | StructureError (e : nest.exn)      (* from [assert_same_structure] *)
  | ValueError_differ (x y : A).       (* [ValueError('{x} != {y}')] *)
Arguments StructureError {A} e.
Arguments ValueError_differ {A} x y.

(** The loop over the zipped leaves.  The first component of the outcome
    lists the pairs [eq_fn] was called on, in order. *)
Fixpoint compare_leaves {A} (eq_fn : A → A → bool) (pairs : list (A * A))
    : list (A * A) * result (check_exn A) () :=
  match pairs with
  | [] => ([], Ok ())
  | (x, y) :: rest =>
      if negb (eq_fn x y) then ([(x, y)], Raise (ValueError_differ x y))
      else
        let '(calls, r) := compare_leaves eq_fn rest in ((x, y) :: calls, r)
  end.

Definition check_nested_equal {A} (nested_x nested_y : nested A)
    (eq_fn : A → A → bool) : list (A * A) * result (check_exn A) () :=
  match nest.assert_same_structure nested_x nested_y with
  | Raise e => ([], Raise (StructureError e))
  | Ok _ =>
      let flat_x := nest.flatten nested_x in
      let flat_y := nest.flatten nested_y in
      compare_leaves eq_fn (zip flat_x flat_y)
  end.

(** Two structures have the same nesting: the same containers with the same
    number of items at every level, and for dicts the same keys. *)
Inductive same_nesting {A B} : nested A → nested B → Prop :=
  | same_leaf a b : same_nesting (Leaf a) (Leaf b)
  | same_seq k items1 items2 :
      Forall2 same_nesting items1 items2 →
      same_nesting (Seq k items1) (Seq k items2)
  | same_dict entries1 entries2 :
      Forall2 (λ e1 e2, e1.1 = e2.1 ∧ same_nesting e1.2 e2.2)
        (python.sorted entries1) (python.sorted entries2) →
      same_nesting (Dict entries1) (Dict entries2).

(** ** Tensors and the tensor engine *)

(** A tensor of floating-point numbers: its dimensions and its elements in
    row-major order.  An element is an IEEE 754 datum: a signed zero, a
    signed infinity, NaN or a finite non-zero number. *)
Record Tensor : Type := {
  tensor_shape : list nat;
  tensor_data : list spec_float
}.

Module tf.
Definition constant (n : Z) : Z := n.

Definition finite (x : spec_float) : bool :=
  match x with
  | S754_zero _ | S754_finite _ _ _ => true
  | S754_infinity _ | S754_nan => false
  end.

(** [tf.is_finite]: the elementwise test, a boolean tensor. *)
Definition is_finite (t : Tensor) : list bool := map finite (tensor_data t).

(** [tf.reduce_all] over all axes. *)
Definition reduce_all (bs : list bool) : bool := forallb id bs.

Definition logical_and (a b : bool) : bool := a && b.

(** [tf.zeros_like]: same shape, every element [+0.0]. *)
Definition zeros_like (t : Tensor) : Tensor :=
  {| tensor_shape := tensor_shape t;
     tensor_data := map (λ _, S754_zero false) (tensor_data t) |}.

(** [tf.cond]: both branches are given as thunks and the one selected by
    the predicate provides the result. *)
Definition cond {R} (pred : bool) (true_fn false_fn : () → R) : R :=
  if pred then true_fn () else false_fn ().
End tf.

(** ** zero_all_if_any_non_finite *)

Definition zero_all_if_any_non_finite (structure : nested Tensor)
    : result python.reduce_exn (nested Tensor * Z) :=
  let flat := nest.flatten structure in
  match flat with
  | [] => Ok (structure, tf.constant 0)
  | _ :: _ =>
      let flat_bools := map (λ t, tf.reduce_all (tf.is_finite t)) flat in
      all_finite ← python.functools_reduce tf.logical_and flat_bools;
      let t_fn := λ _ : (), (structure, tf.constant 0) in
      let f_fn := λ _ : (),
        (nest.map_structure tf.zeros_like structure, tf.constant 1) in
      Ok (tf.cond all_finite t_fn f_fn)
  end.

(** An element is non-finite when it is NaN or an infinity. *)
Definition non_finite (x : spec_float) : Prop :=
  x = S754_nan ∨ ∃ s, x = S754_infinity s.

Definition has_non_finite (t : Tensor) : Prop :=
  Exists non_finite (tensor_data t).

(** [z] is the all-zero tensor of the shape of [t]. *)
Definition zero_of (t z : Tensor) : Prop :=
  tensor_shape z = tensor_shape t ∧
  length (tensor_data z) = length (tensor_data t) ∧
  Forall (λ x, x = S754_zero false) (tensor_data z).

(** ** Exceptions of to_var_dict and to_odict *)

(** [TypeError] is raised by the type checks; [ValueError] carries the
    arguments it was built with. *)
Inductive exception : Type :=
  | TypeError
  | ValueError (args : list string).

Module py_typecheck.
(** Modelled from the spec: [py_typecheck.check_type] is not part of the
    sources.  It fails with a [TypeError] when the value does not have the
    required type; [as_type] is the instance test, giving the value at
    that type. *)
Definition check_type {X T} (as_type : X → option T) (target : X)
    : result exception T :=
  match as_type target with
  | Some t => Ok t
  | None => Raise TypeError
  end.
End py_typecheck.

Module collections.
(** [d[k] = v] on an [OrderedDict], given by its items in insertion order:
    a key already present keeps its position. *)
Fixpoint setitem {K V} `{EqDecision K} (d : list (K * V)) (k : K) (v : V)
    : list (K * V) :=
  match d with
  | [] => [(k, v)]
  | (k', v') :: d' =>
      if decide (k' = k) then (k, v) :: d' else (k', v') :: setitem d' k v
  end.

(** [collections.OrderedDict(items)]. *)
Definition OrderedDict {K V} `{EqDecision K} (items : list (K * V))
    : list (K * V) :=
  foldl (λ d kv, setitem d kv.1 kv.2) [] items.
End collections.

(** ** to_var_dict *)

(** A [tf.Variable]: its name and the object's identity. *)
Record tf_Variable : Type := { name : string; var_id : nat }.

(** An element of the iterable: a variable or any other value. *)
Inductive element : Type :=
  | IsVariable (v : tf_Variable)
  | NotVariable.

Definition as_Variable (e : element) : option tf_Variable :=
  match e with
  | IsVariable v => Some v
  | NotVariable => None
  end.

Definition unexpected_name (n : string) : exception :=
  ValueError ["Variable has unexpected name " +:+ n].
Definition multiple_variables (n : string) : exception :=
  ValueError ["Found multiple variables with the name"; n].

(** The loop of [to_var_dict], with its two accumulators. *)
Fixpoint to_var_dict_loop (variables : list element)
    (tuples : list (string * tf_Variable)) (seen_names : gset string)
    : result exception (list (string * tf_Variable)) :=
  match variables with
  | [] => Ok tuples
  | v :: variables' =>
      v ← py_typecheck.check_type as_Variable v;
      if negb (String.eqb (python.last_two (name v)) ":0")
      then Raise (unexpected_name (name v))
      else
        let name' := python.drop_last_two (name v) in
        if decide (name' ∈ seen_names)
        then Raise (multiple_variables name')
        else
          to_var_dict_loop variables' (tuples ++ [(name', v)])
            (seen_names ∪ {[name']})
  end.

Definition to_var_dict (variables : list element)
    : result exception (list (string * tf_Variable)) :=
  tuples ← to_var_dict_loop variables [] ∅;
  Ok (collections.OrderedDict tuples).

(** ** to_odict *)

(** A dict key: a string or a value of another type (an int, say). *)
Inductive key : Type :=
  | KStr (s : string)
  | KInt (n : Z).

#[global] Instance key_eq_dec : EqDecision key.
Proof. solve_decision. Defined.

#[global] Instance key_countable : Countable key :=
  inj_countable'
    (λ k, match k with KStr s => inl s | KInt n => inr n end)
    (λ x, match x with inl s => KStr s | inr n => KInt n end)
    (λ k, match k with KStr _ | KInt _ => eq_refl end).

Definition as_str (k : key) : option string :=
  match k with
  | KStr s => Some s
  | KInt _ => None
  end.

(** The argument of [to_odict]: an [OrderedDict] with its items in insertion
    order, a plain [dict], or a value that is not a dict. *)
Inductive mapping_arg (V : Type) : Type :=
  | AnOrderedDict (items : list (key * V))
  | ADict (d : gmap key V)
  | NotADict.
Arguments AnOrderedDict {V} items.
Arguments ADict {V} d.
Arguments NotADict {V}.

Definition as_dict {V} (d : mapping_arg V) : option (gmap key V) :=
  match d with
  | ADict m => Some m
  | AnOrderedDict items => Some (list_to_map items)
  | NotADict => None
  end.

(** The loop over [six.iteritems(d)]. *)
Fixpoint to_odict_loop {V} (iteritems : list (key * V))
    (items : list (string * V)) : result exception (list (string * V)) :=
  match iteritems with
  | [] => Ok items
  | (k, v) :: rest =>
      k ← py_typecheck.check_type as_str k;
      to_odict_loop rest (items ++ [(k, v)])
  end.

(** [to_odict(d)].  The items are tuples [(k, v)]; the keys of a dict are
    distinct, so [sorted] never compares two values. *)
Definition to_odict {V} (d : mapping_arg V)
    : result exception (list (key * V)) :=
  match d with
  | AnOrderedDict items => Ok items
  | _ =>
      d ← py_typecheck.check_type as_dict d;
      items ← to_odict_loop (map_to_list d) [];
      Ok (prod_map KStr id <$> collections.OrderedDict (python.sorted items))
  end.

(** Strict lexicographic order on strings. *)
Definition string_lt (s1 s2 : string) : Prop := String.ltb s1 s2 = true.

(** Some key of the mapping is not a string. *)
Definition has_non_string_key {V} (d : mapping_arg V) : Prop :=
  match d with
  | AnOrderedDict items => ∃ n v, (KInt n, v) ∈ items
  | ADict m => ∃ n, is_Some (m !! KInt n)
  | NotADict => False
  end.

(** "fails with a TypeError if the input is not a mapping, or if any key of
    the mapping is not a string". *)
Definition to_odict_stated {V} (d : mapping_arg V) : Prop :=
  (d = NotADict ∨ has_non_string_key d) → to_odict d = Raise TypeError.

(** ** Graph variables: [tf.variable_scope], [tf.get_variable], sessions *)

Module variables.
(** The element types and numbers of the tensor engine and the operations on
    them that [metrics_sum] reaches, each taken in the arithmetic of an
    element type: which element types are numeric, these being the ones the
    operations behind [tf.reduce_sum] and [tf.assign_add] are defined for;
    the value a zeros initializer gives, the addition of [tf.assign_add] and
    [tf.reduce_sum] over all axes.  Whatever rounding or wrap-around the
    engine has for an element type is part of these operations. *)
Class arithmetic : Type := {
  dtype : Type;
  #[global] dtype_eq_dec :: EqDecision dtype;
  numeric : dtype → bool;
  number : Type;
  zeros : dtype → number;
  add : dtype → number → number → number;
  reduce_sum : dtype → list number → number
}.

(** The [reuse] setting of the enclosing variable scope. *)
Inductive reuse_mode : Type := reuse_False | reuse_True | AUTO_REUSE.

(** [tf.GraphKeys]. *)
Definition GLOBAL_VARIABLES : string := "variables".
Definition LOCAL_VARIABLES : string := "local_variables".
Definition TRAINABLE_VARIABLES : string := "trainable_variables".

(** *** Scope names *)

Definition between (lo hi : nat) (c : ascii) : bool :=
  (lo <=? nat_of_ascii c)%nat && (nat_of_ascii c <=? hi)%nat.

(** The character class [A-Za-z0-9]. *)
Definition alphanumeric (c : ascii) : bool :=
  between 65 90 c || between 97 122 c || between 48 57 c.

(** The character classes [A-Za-z0-9.] and [A-Za-z0-9_.\-/]. *)
Definition op_name_start (c : ascii) : bool :=
  alphanumeric c || Ascii.eqb c ".".
Definition scope_name_char (c : ascii) : bool :=
  alphanumeric c || Ascii.eqb c "_" || Ascii.eqb c "." || Ascii.eqb c "-" ||
  Ascii.eqb c "/".

(** A match of [^[A-Za-z0-9_.\-/]*$]: the final [$] also matches before a
    newline that ends the string. *)
Fixpoint valid_scope_name (s : string) : bool :=
  match s with
  | EmptyString => true
  | String c EmptyString => scope_name_char c || Ascii.eqb c "010"
  | String c s' => scope_name_char c && valid_scope_name s'
  end.

(** A match of [^[A-Za-z0-9.][A-Za-z0-9_.\-/]*$]. *)
Definition valid_op_name (s : string) : bool :=
  match s with
  | EmptyString => false
  | String c s' => op_name_start c && valid_scope_name s'
  end.

(** [old + "/" + name if old else name]. *)
Definition join (old name : string) : string :=
  if decide (old = "") then name else old +:+ "/" +:+ name.

(** *** Shapes of variables *)

Definition dimension_compatible (a b : Dimension) : bool :=
  match value a, value b with
  | Some x, Some y => x =? y
  | _, _ => true
  end.

(** [TensorShape.is_compatible_with]. *)
Definition is_compatible_with (x y : TensorShape) : bool :=
  match dims x, dims y with
  | Some xs, Some ys =>
      (length xs =? length ys)%nat &&
      forallb (λ ab, dimension_compatible ab.1 ab.2) (zip xs ys)
  | _, _ => true
  end.

(** The shape [[]] of a scalar. *)
Definition scalar_shape : TensorShape := {| dims := Some [] |}.

Section engine.
Context `{!arithmetic}.

(** A variable of the graph: its shape and element type, the value its
    initializer gives it, and the collections it was added to. *)
Record variable : Type := {
  var_shape : TensorShape;
  var_dtype : dtype;
  initial_value : number;
  trainable : bool;
  collections : list string
}.

(** The state of the graph under construction: the variable store by full
    name, how often each variable scope was entered, and the variable scope
    and name scope in force: the [reuse] setting and name of the former, the
    name stack of the latter.  The names given to operations are not part of
    it. *)
Record graph : Type := {
  store : gmap string variable;
  scope_count : gmap string nat;
  reuse : reuse_mode;
  scope_name : string;
  name_stack : string
}.

Definition entered (g : graph) (scope : string) : nat :=
  default 0%nat (scope_count g !! scope).

(** [Graph.name_scope(name)] on a name that is not empty: a scope created at
    the root must be a valid operation name, a nested one a valid scope
    name. *)
Definition name_scope (g : graph) (name : string) : result exception () :=
  let valid :=
    if decide (name_stack g = "") then valid_op_name name
    else valid_scope_name name in
  if valid then Ok ()
  else Raise (ValueError ["'" +:+ name +:+ "' is not a valid scope name"]).

(** The first of [prefix_idx], [prefix_(idx+1)], ... such that no scope of
    that name was entered in the scope in force.  The search stops within as
    many steps as scopes were entered, which is the fuel it is given. *)
Fixpoint first_unused (g : graph) (prefix : string) (fuel idx : nat)
    : string :=
  let candidate := prefix +:+ "_" +:+ pretty idx in
  match fuel with
  | O => candidate
  | S fuel' =>
      if decide (entered g (join (scope_name g) candidate) = 0%nat)
      then candidate
      else first_unused g prefix fuel' (S idx)
  end.

(** The scope name made from a default name: the name itself if no scope
    of that name was entered, else the first unused numbered variant. *)
Definition unique_default_name (g : graph) (prefix : string) : string :=
  if decide (entered g (join (scope_name g) prefix) = 0%nat) then prefix
  else first_unused g prefix (size (scope_count g)) 1.

(** Opening a variable scope counts the entry. *)
Definition open_variable_scope (new_name : string) (g : graph) : graph :=
  {| store := store g;
     scope_count := <[new_name := S (entered g new_name)]> (scope_count g);
     reuse := reuse g;
     scope_name := new_name;
     name_stack := name_stack g |}.

(** Entering [tf.variable_scope(name_or_scope, default_name, values)]: gives
    the full name of the scope entered.  The [values] only select the
    graph, and no [reuse] argument is passed, so the setting in force is
    inherited.  A name scope is entered first, for the name given (unless it
    is empty) or else for the default name. *)
Definition variable_scope (name_or_scope : option string)
    (default_name : string) (g : graph) : result exception (string * graph) :=
  match name_or_scope with
  | Some n =>
      _ ← (if decide (n = "") then Ok () else name_scope g n);
      let new_name := join (scope_name g) n in
      Ok (new_name, open_variable_scope new_name g)
  | None =>
      _ ← name_scope g default_name;
      let new_name :=
        join (scope_name g) (unique_default_name g default_name) in
      Ok (new_name, open_variable_scope new_name g)
  end.

(** Leaving the scope [new_name] entered from [old]: the counts of the
    scopes below it are reset and the scope in force is [old]'s again. *)
Definition exit_variable_scope (old : graph) (new_name : string) (g : graph)
    : graph :=
  {| store := store g;
     scope_count :=
       map_imap
         (λ k n, Some (if String.prefix (new_name +:+ "/") k then 0%nat
                       else n))
         (scope_count g);
     reuse := reuse old;
     scope_name := scope_name old;
     name_stack := name_stack old |}.

(** The full name of the variable [name] of the scope [scope]:
    [scope + "/" + name if scope else name]. *)
Definition full_name (scope name : string) : string := join scope name.

(** [tf.get_variable(name, shape, dtype, initializer, collections,
    trainable)] in the scope in force: gives the full name of the variable.
    An existing variable is refused when reuse is off, and must agree in
    shape and element type; a missing one is refused when reuse is
    demanded. *)
Definition get_variable (name : string) (shape : TensorShape) (dt : dtype)
    (initializer : dtype → number) (colls : option (list string))
    (is_trainable : bool) (g : graph) : result exception (string * graph) :=
  let full_name := full_name (scope_name g) name in
  match store g !! full_name with
  | Some found =>
      match reuse g with
      | reuse_False =>
          Raise (ValueError
            ["Variable " +:+ full_name +:+ " already exists, disallowed."])
      | _ =>
          if negb (is_compatible_with shape (var_shape found))
          then Raise (ValueError
            ["Trying to share variable " +:+ full_name +:+
             ", but specified shape differs."])
          else if decide (var_dtype found = dt) then Ok (full_name, g)
          else Raise (ValueError
            ["Trying to share variable " +:+ full_name +:+
             ", but specified dtype differs."])
      end
  | None =>
      match reuse g with
      | reuse_True =>
          Raise (ValueError
            ["Variable " +:+ full_name +:+ " does not exist."])
      | _ =>
          let colls :=
            default [GLOBAL_VARIABLES] colls ++
            (if is_trainable then [TRAINABLE_VARIABLES] else []) in
          Ok (full_name,
              {| store :=
                   <[full_name :=
                       {| var_shape := shape; var_dtype := dt;
                          initial_value := initializer dt;
                          trainable := is_trainable;
                          collections := colls |}]> (store g);
                 scope_count := scope_count g;
                 reuse := reuse g;
                 scope_name := scope_name g;
                 name_stack := name_stack g |})
      end
  end.

(** [tf.zeros_initializer]. *)
Definition zeros_initializer : dtype → number := zeros.

(** A tensor of the graph: its element type, and its value as a function
    of what is fed to the run. *)
Record tensor (F : Type) : Type := {
  tensor_dtype : dtype;
  eval : F → list number
}.

(** Building [tf.reduce_sum(input)], the sum over all axes: the operation
    is refused with a [TypeError] for an element type that is not numeric. *)
Definition reduce_sum_op {F} (input : tensor F)
    : result exception (F → number) :=
  if numeric (tensor_dtype F input)
  then Ok (λ feed, reduce_sum (tensor_dtype F input) (eval F input feed))
  else Raise TypeError.

(** The operation built by [tf.assign_add(ref, value)]: the variable, its
    element type and the value to add.  It takes the same element types as
    the sum. *)
Record assign_add (F : Type) : Type := {
  ref : string;
  ref_dtype : dtype;
  operand : F → number
}.

Inductive run_error : Type := FailedPrecondition_uninitialized.

(** A session maps the initialized variables to their values.  Running an
    [assign_add] updates the variable in place and gives the new value. *)
Definition run {F} (op : assign_add F) (feed : F)
    (sess : gmap string number)
    : result run_error (number * gmap string number) :=
  match sess !! ref F op with
  | None => Raise FailedPrecondition_uninitialized
  | Some acc =>
      let acc' := add (ref_dtype F op) acc (operand F op feed) in
      Ok (acc', <[ref F op := acc']> sess)
  end.

(** Running [tf.local_variables_initializer()]. *)
Definition local_variables_initializer (g : graph)
    (sess : gmap string number) : gmap string number :=
  (initial_value <$>
     filter (λ kv, LOCAL_VARIABLES ∈ collections kv.2) (store g)) ∪ sess.
End engine.

Arguments tensor_dtype {_ F} t.
Arguments eval {_ F} t feed.
Arguments ref {_ F} a.
Arguments ref_dtype {_ F} a.
Arguments operand {_ F} a feed.
Arguments Build_assign_add {_ F} ref ref_dtype operand.
Arguments Build_tensor {_ F} tensor_dtype eval.
End variables.

(** ** metrics_sum *)

Definition metrics_sum `{!variables.arithmetic} {F}
    (values : variables.tensor F) (name : option string)
    (g : variables.graph)
    : result exception
        ((string * variables.assign_add F) * variables.graph) :=
  '(scope, g_in) ← variables.variable_scope name "metrics_sum" g;
  '(sum_var, g_in) ← variables.get_variable "sum" variables.scalar_shape
      (variables.tensor_dtype values) variables.zeros_initializer
      (Some [variables.LOCAL_VARIABLES]) false g_in;
  total ← variables.reduce_sum_op values;
  let update_op :=
    variables.Build_assign_add sum_var (variables.tensor_dtype values) total in
  Ok ((sum_var, update_op), variables.exit_variable_scope g scope g_in).

(** The full name of the variable scope a call with this name enters. *)
Definition scope_entered `{!variables.arithmetic} (g : variables.graph)
    (name : option string) : string :=
  variables.join (variables.scope_name g)
    match name with
    | Some n => n
    | None => variables.unique_default_name g "metrics_sum"
    end.

(** The name given is accepted as the name of a scope: it is empty, or a
    valid operation name at the root of the name scopes, or a valid scope
    name below the root.  No name is always accepted. *)
Definition scope_name_accepted `{!variables.arithmetic} (g : variables.graph)
    (name : option string) : Prop :=
  match name with
  | Some n =>
      n = "" ∨
      (if decide (variables.name_stack g = "") then variables.valid_op_name n
       else variables.valid_scope_name n) = true
  | None => True
  end.

(** "repeated calls with the same name reuse the same variable rather than
    creating a duplicate": after a call that returned, a second call with the
    same name returns the same variable and leaves the store as it was. *)
Definition metrics_sum_reuse_stated `{!variables.arithmetic} {F}
    (values : variables.tensor F) (name : string) (g : variables.graph)
    : Prop :=
  ∀ r1 g1, metrics_sum values (Some name) g = Ok (r1, g1) →
    ∃ r2 g2, metrics_sum values (Some name) g1 = Ok (r2, g2) ∧
      r2.1 = r1.1 ∧ variables.store g2 = variables.store g1.

(** The signed integers of 32 and 64 bits with their wrap-around: an
    arithmetic to run the definitions on. *)
Inductive int_dtype : Type := int32 | int64.

#[global] Instance int_dtype_eq_dec : EqDecision int_dtype.
Proof. solve_decision. Defined.

Definition int_bits (dt : int_dtype) : Z :=
  match dt with
  | int32 => 32
  | int64 => 64
  end.

Definition wrap (dt : int_dtype) (z : Z) : Z :=
  (z + 2 ^ (int_bits dt - 1)) mod 2 ^ int_bits dt - 2 ^ (int_bits dt - 1).

#[global] Instance int_arithmetic : variables.arithmetic := {|
  variables.dtype := int_dtype;
  variables.numeric := λ _, true;
  variables.number := Z;
  variables.zeros := λ _, 0;
  variables.add := λ dt a b, wrap dt (a + b);
  variables.reduce_sum := λ dt xs, foldr (λ x s, wrap dt (x + s)) 0 xs
|}.


(** ** Notions used by further properties *)

(** [TensorShape.num_elements()] on the dimensions of a shape of known rank:
    the product of the sizes, or [None] if some size is unknown. *)
Fixpoint num_elements (ds : list Dimension) : option Z :=
  match ds with
  | [] => Some 1
  | d :: ds' =>
      match value d, num_elements ds' with
      | Some n, Some m => Some (n * m)
      | _, _ => None
      end
  end.

(** * Properties *)

(** ** Shape and dimension equality *)

Section shapes.
Implicit Types (x y : TensorShape) (a b : option Dimension).

Lemma same_dimension_sym a b : same_dimension a b = same_dimension b a.
Proof.
  destruct a as [da|], b as [db|]; unfold same_dimension; try done.
  apply bool_decide_ext. split; congruence.
Qed.

Lemma same_dimension_true a b :
  same_dimension a b = true ↔
    (a = None ∧ b = None) ∨
    (∃ da db, a = Some da ∧ b = Some db ∧ value da = value db).
Proof.
  destruct a as [da|], b as [db|]; unfold same_dimension;
    rewrite ?bool_decide_eq_true.
  - split; [intros H; right; by exists da, db|].
    intros [[? _]|(? & ? & ? & ? & ?)]; congruence.
  - split; [done|]. intros [[? _]|(? & ? & _ & ? & _)]; congruence.
  - split; [done|]. intros [[_ ?]|(? & ? & ? & _ & _)]; congruence.
  - split; [by left|done].
Qed.

Lemma forallb_zip_sym (xs ys : list Dimension) :
  forallb (λ ab, same_dimension (Some ab.1) (Some ab.2)) (zip xs ys) =
  forallb (λ ab, same_dimension (Some ab.1) (Some ab.2)) (zip ys xs).
Proof.
  revert ys. induction xs as [|d xs IH]; intros [|e ys]; simpl; try done.
  by rewrite IH, same_dimension_sym.
Qed.

Lemma forallb_zip_lookup (xs ys : list Dimension) :
  forallb (λ ab, same_dimension (Some ab.1) (Some ab.2)) (zip xs ys) = true ↔
  ∀ i d e, xs !! i = Some d → ys !! i = Some e →
    same_dimension (Some d) (Some e) = true.
Proof.
  revert ys. induction xs as [|d xs IH]; intros [|e ys]; simpl;
    try (split; [intros _ i ?? H1 H2; by destruct i|done]).
  rewrite andb_true_iff, IH. split.
  - intros [Hd Hr] [|i] d' e' H1 H2; simplify_eq/=; eauto.
  - intros H. split; [exact (H 0%nat d e eq_refl eq_refl)|].
    intros i d' e' H1 H2. exact (H (S i) d' e' H1 H2).
Qed.
End shapes.

(** C10.  Shape equality and dimension equality are symmetric. *)
Theorem same_shape_same_dimension_symmetric :
  (∀ x y : TensorShape, same_shape x y = same_shape y x) ∧
  (∀ a b : option Dimension, same_dimension a b = same_dimension b a).
Proof.
  split; [|apply same_dimension_sym].
  intros [dx] [dy]. unfold same_shape, ndims; simpl.
  destruct dx as [xs|], dy as [ys|]; simpl; try done.
  rewrite forallb_zip_sym.
  destruct (decide (length xs = length ys)) as [Hl|Hl].
  - rewrite !bool_decide_eq_true_2; congruence.
  - rewrite !bool_decide_eq_false_2; [done|congruence..].
Qed.

Lemma same_shape_true (x y : TensorShape) :
  same_shape x y = true ↔
    ndims x = ndims y ∧
    (∀ n, ndims x = Some n →
      (dims x = None ∧ dims y = None) ∨
      (∃ xs ys, dims x = Some xs ∧ dims y = Some ys ∧
        ∀ i d e, xs !! i = Some d → ys !! i = Some e →
          same_dimension (Some d) (Some e) = true)).
Proof.
  destruct x as [dx], y as [dy]. unfold same_shape, ndims; simpl.
  destruct dx as [xs|], dy as [ys|]; simpl.
  - case_bool_decide as Hl; simpl.
    + rewrite forallb_zip_lookup. split.
      * intros H. split; [done|]. intros n _. right. by exists xs, ys.
      * intros [_ H]. destruct (H (length xs) eq_refl)
          as [[? _]|(xs' & ys' & ? & ? & H')]; [done|]. by simplify_eq.
    + split; [done|]. by intros [? _].
  - split; [done|]. by intros [? _].
  - split; [done|]. by intros [? _].
  - split; [|done]. intros _. split; [done|]. by intros n ?.
Qed.

Lemma same_dimension_objects (d e : Dimension) :
  same_dimension (Some d) (Some e) = true ↔
    (value d = None ∧ value e = None) ∨
    (∃ n, value d = Some n ∧ value e = Some n).
Proof.
  unfold same_dimension. rewrite bool_decide_eq_true.
  destruct (value d) as [n|], (value e) as [m|]; split; try done.
  - intros [= ->]. right. by exists m.
  - intros [[? _]|(? & ? & ?)]; congruence.
  - intros [[? _]|(? & ? & ?)]; congruence.
  - intros [[_ ?]|(? & ? & ?)]; congruence.
  - intros _. by left.
Qed.

(** C7, as the code has it.  [same_shape x y] holds iff the ranks agree
    (unknown rank only with unknown rank) and, when the rank is known, both
    have no per-dimension information or both have it and every corresponding
    pair satisfies [same_dimension].  [same_dimension a b] holds iff both
    arguments are [None], or both are [Dimension] objects of equal [value];
    between two [Dimension] objects that is: both unknown, or both known with
    the same integer, never a known one with an unknown one. *)
Theorem same_shape_same_dimension_spec :
  (∀ x y : TensorShape,
    same_shape x y = true ↔
      ndims x = ndims y ∧
      (∀ n, ndims x = Some n →
        (dims x = None ∧ dims y = None) ∨
        (∃ xs ys, dims x = Some xs ∧ dims y = Some ys ∧
          ∀ i d e, xs !! i = Some d → ys !! i = Some e →
            same_dimension (Some d) (Some e) = true))) ∧
  (∀ a b : option Dimension,
    same_dimension a b = true ↔
      (a = None ∧ b = None) ∨
      (∃ da db, a = Some da ∧ b = Some db ∧ value da = value db)) ∧
  (∀ d e : Dimension,
    same_dimension (Some d) (Some e) = true ↔
      (value d = None ∧ value e = None) ∨
      (∃ n, value d = Some n ∧ value e = Some n)).
Proof.
  split; [exact same_shape_true|].
  split; [exact same_dimension_true|exact same_dimension_objects].
Qed.

(** C7 as stated fails: [None] and a [Dimension] of unknown value are both
    unknown, and [same_dimension] tells them apart. *)
Lemma same_dimension_stated_fails :
  ¬ same_dimension_stated None (Some {| value := None |}).
Proof.
  unfold same_dimension_stated. intros [_ H].
  assert (same_dimension None (Some {| value := None |}) = true) as Hc.
  { apply H. left. by split. }
  discriminate Hc.
Qed.

(** ** is_scalar *)

Lemma forallb_dims_one (ds : list Dimension) :
  forallb (λ dim, truth (Dimension_eq dim 1)) ds = all_dims_one ds.
Proof.
  unfold all_dims_one. induction ds as [|d ds IH]; cbn [forallb].
  - symmetry. by apply bool_decide_eq_true_2.
  - rewrite IH. unfold Dimension_eq, truth.
    destruct (value d) as [v|] eqn:Hv; simpl.
    + destruct (Z.eqb_spec v 1) as [->|Hne]; simpl.
      * apply bool_decide_ext. split; [by constructor|by inversion 1].
      * symmetry. apply bool_decide_eq_false_2. inversion 1; congruence.
    + symmetry. apply bool_decide_eq_false_2. inversion 1; congruence.
Qed.



(** ** Nested structures *)

Section nested_induction.
Context {A : Type} (P : nested A → Prop).
Hypothesis P_leaf : ∀ a, P (Leaf a).
Hypothesis P_seq : ∀ k items, Forall P items → P (Seq k items).
Hypothesis P_dict :
  ∀ entries, Forall (λ e, P e.2) entries → P (Dict entries).

Lemma nested_induction (s : nested A) : P s.
Proof.
  revert s. fix IH 1. intros [a|k items|entries].
  - apply P_leaf.
  - apply P_seq. induction items as [|x items IHitems]; constructor.
    + apply IH.
    + apply IHitems.
  - apply P_dict. induction entries as [|[key x] entries IHentries];
      constructor.
    + apply IH.
    + apply IHentries.
Qed.
End nested_induction.

Section sorted_items.
Context {V W : Type}.
Implicit Types (l : list (string * V)) (f : V → W).

Lemma insert_item_on_values f x l :
  python.insert_item (nest.on_values f x) (map (nest.on_values f) l) =
  map (nest.on_values f) (python.insert_item x l).
Proof.
  induction l as [|y l IH]; simpl; [done|].
  destruct (String.leb x.1 y.1); simpl; [done|]. by rewrite IH.
Qed.

Lemma sorted_on_values f l :
  python.sorted (map (nest.on_values f) l) =
  map (nest.on_values f) (python.sorted l).
Proof.
  induction l as [|x l IH]; simpl; [done|].
  by rewrite IH, insert_item_on_values.
Qed.

Lemma insert_item_Permutation x l : python.insert_item x l ≡ₚ x :: l.
Proof.
  induction l as [|y l IH]; simpl; [done|].
  destruct (String.leb x.1 y.1); [done|].
  rewrite IH. apply Permutation_swap.
Qed.

Lemma sorted_Permutation l : python.sorted l ≡ₚ l.
Proof.
  induction l as [|x l IH]; simpl; [done|].
  by rewrite insert_item_Permutation, IH.
Qed.

Lemma values_on_values f l :
  map snd (map (nest.on_values f) l) = map (λ e, f e.2) l.
Proof. by rewrite map_map. Qed.
End sorted_items.

Lemma Forall2_iff_on {X Y} (P : X → Prop) (Q Q' : X → Y → Prop) xs ys :
  Forall (λ x, ∀ y, Q x y ↔ Q' x y) xs →
  Forall2 Q xs ys ↔ Forall2 Q' xs ys.
Proof.
  intros HP. revert ys. induction HP as [|x xs Hx _ IH]; intros ys.
  - split; inversion 1; constructor.
  - split; inversion 1; subst; constructor;
      try (by apply Hx); by apply IH.
Qed.

Lemma in_lockstep_Ok {X Y : Type} (c : X → Y → result nest.exn ())
  (xs : list X) (ys : list Y) :
  nest.in_lockstep (map c xs) ys = Ok () ↔
  Forall2 (λ x y, c x y = Ok ()) xs ys.
Proof.
  revert ys. induction xs as [|x xs IH]; intros [|y ys]; simpl;
    try (split; [done|by inversion 1]).
  destruct (c x y) as [[]|e] eqn:Hc; simpl.
    + rewrite IH. split; [by constructor|by inversion 1].
    + split; [done|]. inversion 1; congruence.
Qed.

Lemma in_lockstep_values_Ok {X Y : Type} (c : X → Y → result nest.exn ())
    (es1 : list (string * X)) (es2 : list (string * Y)) :
  nest.in_lockstep (map (λ e, c e.2) es1) (map snd es2) = Ok () ↔
  Forall2 (λ e1 e2, c e1.2 e2.2 = Ok ()) es1 es2.
Proof.
  revert es2. induction es1 as [|e1 es1 IH]; intros [|e2 es2]; simpl;
    try (split; [done|by inversion 1]).
  destruct (c e1.2 e2.2) as [[]|e] eqn:Hc; simpl.
  - rewrite IH. split; [by constructor|by inversion 1].
  - split; [done|]. inversion 1; congruence.
Qed.

Section same_structure.
Context {A B : Type}.

Lemma Forall2_keys_values (Q : nested A → nested B → Prop)
    (es1 : list (string * nested A)) (es2 : list (string * nested B)) :
  map fst es1 = map fst es2 ∧ Forall2 (λ e1 e2, Q e1.2 e2.2) es1 es2 ↔
  Forall2 (λ e1 e2, e1.1 = e2.1 ∧ Q e1.2 e2.2) es1 es2.
Proof.
  split.
  - intros [Hk HQ]. induction HQ as [|e1 e2 es1 es2 Hq _ IH];
      [constructor|]. simpl in Hk. injection Hk as Hk1 Hk.
    constructor; [done|by apply IH].
  - induction 1 as [|e1 e2 es1 es2 [Hk Hq] _ [IHk IHq]]; simpl.
    + split; [done|constructor].
    + split; [by rewrite Hk, IHk|by constructor].
Qed.

(** [assert_same_structure] accepts exactly the pairs of structures with
    the same nesting. *)
Lemma assert_same_structure_Ok (nest1 : nested A) (nest2 : nested B) :
  nest.assert_same_structure nest1 nest2 = Ok () ↔
  same_nesting nest1 nest2.
Proof.
  revert nest2. induction nest1 as [a|k items1 IH|entries1 IH]
    using nested_induction; intros [b|k2 items2|entries2]; simpl;
    try (split; [done|by inversion 1]).
  - split; [constructor|done].
  - destruct (decide (k = k2)) as [<-|Hk].
    + rewrite in_lockstep_Ok.
      rewrite (Forall2_iff_on (λ _, True) _ same_nesting) by exact IH.
      split; [by constructor|]. inversion 1; by simplify_eq.
    + split; [done|]. inversion 1; by simplify_eq.
  - destruct (decide _) as [Hk|Hk].
    + rewrite sorted_on_values, values_on_values, in_lockstep_values_Ok.
      assert (Forall (λ e : string * nested A, ∀ e2 : string * nested B,
                nest.assert_same_structure e.2 e2.2 = Ok () ↔
                same_nesting e.2 e2.2) (python.sorted entries1)) as IH'.
      { rewrite sorted_Permutation. eapply Forall_impl; [exact IH|].
        intros e He e2. apply He. }
      rewrite (Forall2_iff_on (λ _, True) _
                (λ e1 e2, same_nesting e1.2 e2.2)) by exact IH'.
      split.
      * intros H. constructor. apply Forall2_keys_values. by split.
      * inversion 1 as [| |? ? H']; simplify_eq.
        by apply Forall2_keys_values in H' as [_ ?].
    + split; [done|]. inversion 1 as [| |? ? H']; simplify_eq.
      by apply Forall2_keys_values in H' as [? _].
Qed.

Lemma assert_same_structure_Raise (nest1 : nested A) (nest2 : nested B) :
  ¬ same_nesting nest1 nest2 →
  ∃ e, nest.assert_same_structure nest1 nest2 = Raise e.
Proof.
  intros Hn. destruct (nest.assert_same_structure nest1 nest2) as [[]|e]
    eqn:Hr; [|by exists e].
  by apply assert_same_structure_Ok in Hr.
Qed.

Lemma flatten_Dict (entries : list (string * nested A)) :
  nest.flatten (Dict entries) =
  concat (map (λ e, nest.flatten e.2) (python.sorted entries)).
Proof.
  simpl. by rewrite sorted_on_values, values_on_values.
Qed.
End same_structure.

Lemma Forall2_impl_on {X Y} (Q Q' : X → Y → Prop) xs ys :
  Forall (λ x, ∀ y, Q x y → Q' x y) xs →
  Forall2 Q xs ys → Forall2 Q' xs ys.
Proof.
  intros HP HQ. induction HQ as [|x y xs ys Hq _ IH]; [constructor|].
  inversion HP; subst. constructor; auto.
Qed.

Lemma concat_length_Forall2 {X Y L M} (f : X → list L) (g : Y → list M)
    xs ys :
  Forall2 (λ x y, length (f x) = length (g y)) xs ys →
  length (concat (map f xs)) = length (concat (map g ys)).
Proof.
  induction 1 as [|x y xs ys Hxy _ IH]; simpl; [done|].
  rewrite !length_app. congruence.
Qed.

(** Structures of the same nesting have the same number of leaves, so that
    zipping their flattenings pairs every leaf with its counterpart. *)
Lemma same_nesting_flatten_length {A B} (nest1 : nested A)
    (nest2 : nested B) :
  same_nesting nest1 nest2 →
  length (nest.flatten nest1) = length (nest.flatten nest2).
Proof.
  revert nest2. induction nest1 as [a|k items1 IH|entries1 IH]
    using nested_induction; intros nest2 Hs.
  - by inversion Hs.
  - inversion Hs as [|? ? items2 Hitems|]; subst. simpl.
    apply concat_length_Forall2.
    eapply Forall2_impl_on; [|exact Hitems]. exact IH.
  - inversion Hs as [| |? entries2 Hentries]; subst.
    rewrite !flatten_Dict. apply concat_length_Forall2.
    eapply Forall2_impl_on; [|exact Hentries].
    rewrite sorted_Permutation. eapply Forall_impl; [exact IH|].
    intros e He e2 [_ Hse]. by apply He.
Qed.

(** ** check_nested_equal *)

Section compare_leaves.
Context {A : Type} (eq_fn : A → A → bool).
Implicit Types (pairs pre post : list (A * A)).

Lemma compare_leaves_agree pairs :
  Forall (λ p, eq_fn p.1 p.2 = true) pairs → compare_leaves eq_fn pairs = (pairs, Ok ()).
Proof.
  induction 1 as [|[x y] pairs Hxy _ IH]; simpl; [done|].
  simpl in Hxy. by rewrite Hxy, IH.
Qed.

Lemma compare_leaves_first pre a b post :
  Forall (λ p, eq_fn p.1 p.2 = true) pre → eq_fn a b = false →
  compare_leaves eq_fn (pre ++ (a, b) :: post) =
    (pre ++ [(a, b)], Raise (ValueError_differ a b)).
Proof.
  intros Hpre Hab. induction Hpre as [|[x y] pre Hxy _ IH]; simpl.
  - by rewrite Hab.
  - simpl in Hxy. by rewrite Hxy, IH.
Qed.
End compare_leaves.

(** C2.  On structures of different nesting [check_nested_equal] raises the
    structure error of [assert_same_structure] without calling [eq_fn].  On
    structures of the same nesting every leaf has a counterpart; if some pair
    of corresponding leaves fails [eq_fn], the first such pair in flattening
    order is raised in a [ValueError] and [eq_fn] has been called exactly on
    the pairs up to it; if every pair satisfies [eq_fn], nothing is raised. *)
Theorem check_nested_equal_spec {A} (eq_fn : A → A → bool)
    (nested_x nested_y : nested A) :
  (¬ same_nesting nested_x nested_y →
    ∃ e, check_nested_equal nested_x nested_y eq_fn =
           ([], Raise (StructureError e))) ∧
  (same_nesting nested_x nested_y →
    let pairs := zip (nest.flatten nested_x) (nest.flatten nested_y) in
    length (nest.flatten nested_x) = length (nest.flatten nested_y) ∧
    (∀ pre a b post,
      pairs = pre ++ (a, b) :: post →
      Forall (λ p, eq_fn p.1 p.2 = true) pre →
      eq_fn a b = false →
      check_nested_equal nested_x nested_y eq_fn =
        (pre ++ [(a, b)], Raise (ValueError_differ a b))) ∧
    (Forall (λ p, eq_fn p.1 p.2 = true) pairs →
      check_nested_equal nested_x nested_y eq_fn = (pairs, Ok ()))).
Proof.
  split.
  - intros Hn. apply assert_same_structure_Raise in Hn as [e He].
    exists e. unfold check_nested_equal. by rewrite He.
  - intros Hs pairs. split; [by apply same_nesting_flatten_length|].
    apply assert_same_structure_Ok in Hs.
    unfold check_nested_equal. rewrite Hs. fold pairs. split.
    + intros pre a b post -> Hpre Hab. by apply compare_leaves_first.
    + apply compare_leaves_agree.
Qed.

(** ** zero_all_if_any_non_finite *)

Section map_structure.
Context {A B : Type} (f : A → B).

Lemma flatten_map_structure (s : nested A) :
  nest.flatten (nest.map_structure f s) = map f (nest.flatten s).
Proof.
  induction s as [a|k items IH|entries IH] using nested_induction.
  - done.
  - simpl. rewrite concat_map, !map_map. f_equal.
    by apply map_ext_Forall.
  - cbn [nest.map_structure]. rewrite !flatten_Dict.
    rewrite sorted_on_values, concat_map, !map_map. f_equal.
    apply map_ext_Forall. rewrite sorted_Permutation.
    eapply Forall_impl; [exact IH|]. by intros e He.
Qed.

Lemma same_nesting_map_structure (s : nested A) :
  same_nesting s (nest.map_structure f s).
Proof.
  induction s as [a|k items IH|entries IH] using nested_induction.
  - constructor.
  - simpl. constructor. induction IH; simpl; by constructor.
  - cbn [nest.map_structure]. constructor. rewrite sorted_on_values.
    assert (Forall (λ e, same_nesting e.2 (nest.map_structure f e.2))
              (python.sorted entries)) as IH'.
    { by rewrite sorted_Permutation. }
    induction IH'; simpl; by constructor.
Qed.
End map_structure.

Section finiteness.
Implicit Types (x : spec_float) (t : Tensor) (bs : list bool).

Lemma finite_false x : tf.finite x = false ↔ non_finite x.
Proof.
  unfold non_finite. destruct x; simpl; split; try done.
  - intros [?|[? ?]]; done.
  - intros _. right. by eexists.
  - intros _. by left.
  - intros [?|[? ?]]; done.
Qed.

Lemma finite_true x : tf.finite x = true ↔ ¬ non_finite x.
Proof.
  rewrite <-finite_false. destruct (tf.finite x); split; done.
Qed.

Lemma reduce_all_is_finite_true t :
  tf.reduce_all (tf.is_finite t) = true ↔
  Forall (λ x, ¬ non_finite x) (tensor_data t).
Proof.
  unfold tf.reduce_all, tf.is_finite.
  induction (tensor_data t) as [|x xs IH]; simpl.
  - split; [constructor|done].
  - rewrite andb_true_iff, IH, finite_true, Forall_cons. done.
Qed.

Lemma reduce_all_is_finite_false t :
  tf.reduce_all (tf.is_finite t) = false ↔ has_non_finite t.
Proof.
  unfold tf.reduce_all, tf.is_finite, has_non_finite.
  induction (tensor_data t) as [|x xs IH]; simpl.
  - split; [done|by inversion 1].
  - rewrite andb_false_iff, IH, finite_false, Exists_cons. done.
Qed.

Lemma foldl_logical_and b bs :
  foldl tf.logical_and b bs = b && forallb id bs.
Proof.
  revert b. induction bs as [|c bs IH]; intros b; simpl.
  - by rewrite andb_true_r.
  - rewrite IH. unfold tf.logical_and. by rewrite andb_assoc.
Qed.

Lemma reduce_logical_and b bs :
  python.functools_reduce tf.logical_and (b :: bs) =
    Ok (forallb id (b :: bs)).
Proof. simpl. by rewrite foldl_logical_and. Qed.

Lemma zeros_like_zero_of t : zero_of t (tf.zeros_like t).
Proof.
  unfold zero_of, tf.zeros_like; simpl. split; [done|].
  split; [by rewrite length_map|].
  induction (tensor_data t); simpl; by constructor.
Qed.
End finiteness.

Lemma forallb_leaves_true (flat : list Tensor) :
  forallb id (map (λ t, tf.reduce_all (tf.is_finite t)) flat) = true ↔
  Forall (λ t, Forall (λ x, ¬ non_finite x) (tensor_data t)) flat.
Proof.
  induction flat as [|t flat IH]; simpl.
  - split; [constructor|done].
  - rewrite andb_true_iff, IH, reduce_all_is_finite_true, Forall_cons. done.
Qed.

Lemma forallb_leaves_false (flat : list Tensor) :
  forallb id (map (λ t, tf.reduce_all (tf.is_finite t)) flat) = false ↔
  Exists has_non_finite flat.
Proof.
  induction flat as [|t flat IH]; simpl.
  - split; [done|by inversion 1].
  - rewrite andb_false_iff, IH, reduce_all_is_finite_false, Exists_cons. done.
Qed.


(** ** String slices *)

Section slices.
Implicit Types (s t : string).

Lemma substring_app_l s t : substring 0 (String.length s) (s +:+ t) = s.
Proof. induction s as [|c s IH]; simpl; [by destruct t|by rewrite IH]. Qed.

Lemma substring_app_r s t m :
  substring (String.length s) m (s +:+ t) = substring 0 m t.
Proof. induction s as [|c s IH]; simpl; done. Qed.

Lemma length_app_string s t :
  String.length (s +:+ t) = (String.length s + String.length t)%nat.
Proof. induction s as [|c s IH]; simpl; [done|by rewrite IH]. Qed.

Lemma length_app_colon_zero s :
  (String.length (s +:+ ":0") - 2)%nat = String.length s.
Proof. rewrite length_app_string. simpl. lia. Qed.

Lemma last_two_suffix s : python.last_two (s +:+ ":0") = ":0"%string.
Proof.
  unfold python.last_two.
  by rewrite length_app_colon_zero, substring_app_r.
Qed.

Lemma drop_last_two_suffix s : python.drop_last_two (s +:+ ":0") = s.
Proof.
  unfold python.drop_last_two.
  by rewrite length_app_colon_zero, substring_app_l.
Qed.

Lemma substring_full s : substring 0 (String.length s) s = s.
Proof. induction s as [|c s IH]; simpl; [done|by rewrite IH]. Qed.

Lemma substring_split s k :
  (k ≤ String.length s)%nat →
  substring 0 k s +:+ substring k (String.length s - k) s = s.
Proof.
  revert s. induction k as [|k IH]; intros s Hk.
  - rewrite Nat.sub_0_r, substring_full. by destruct s.
  - destruct s as [|c s]; simpl in *; [lia|].
    change (String c (substring 0 k s +:+
              substring k (String.length s - k) s) = String c s).
    f_equal. apply IH. lia.
Qed.

Lemma last_two_inv s :
  python.last_two s = ":0"%string →
  s = python.drop_last_two s +:+ ":0".
Proof.
  unfold python.last_two, python.drop_last_two. intros H.
  destruct s as [|c1 [|c2 s]]; try done.
  set (n := String c1 (String c2 s)) in *.
  assert (2 ≤ String.length n)%nat as Hn by (simpl; lia).
  rewrite <-(substring_split n (String.length n - 2)) at 1 by lia.
  f_equal. rewrite <-H. f_equal. lia.
Qed.

Lemma eqb_last_two_false s :
  (¬ ∃ t, s = t +:+ ":0") →
  String.eqb (python.last_two s) ":0" = false.
Proof.
  intros Hn. apply String.eqb_neq. intros H. apply Hn.
  eexists. by apply last_two_inv.
Qed.
End slices.

(** ** to_var_dict *)

Section ordered_dict.
Context {K V : Type} `{EqDecision K}.
Implicit Types (d l : list (K * V)).

Lemma setitem_fresh d k v :
  k ∉ d.*1 → collections.setitem d k v = d ++ [(k, v)].
Proof.
  induction d as [|[k' v'] d IH]; simpl; [done|].
  rewrite not_elem_of_cons. intros [Hne Hk].
  destruct (decide (k' = k)); [congruence|]. by rewrite IH.
Qed.

Lemma foldl_setitem_fresh d l :
  NoDup (d ++ l).*1 →
  foldl (λ d kv, collections.setitem d kv.1 kv.2) d l = d ++ l.
Proof.
  revert d. induction l as [|[k v] l IH]; intros d Hnd; simpl.
  - by rewrite app_nil_r.
  - rewrite setitem_fresh.
    + rewrite IH; rewrite <-app_assoc; done.
    + rewrite fmap_app, NoDup_app in Hnd. destruct Hnd as (_ & Hd & _).
      intros Hk. apply (Hd k Hk). simpl. left.
Qed.

(** An [OrderedDict] built from items of distinct keys has exactly these
    items, in their order. *)
Lemma OrderedDict_NoDup l : NoDup l.*1 → collections.OrderedDict l = l.
Proof. intros. unfold collections.OrderedDict. by rewrite foldl_setitem_fresh. Qed.
End ordered_dict.

Section to_var_dict.
Implicit Types (pre : list (string * tf_Variable)) (rest : list element).
Implicit Types (seen : gset string).

Lemma to_var_dict_loop_clean pre rest tuples seen :
  Forall (λ e, name e.2 = e.1 +:+ ":0") pre →
  NoDup pre.*1 →
  (∀ k, k ∈ pre.*1 → k ∉ seen) →
  to_var_dict_loop (((λ e, IsVariable e.2) <$> pre) ++ rest) tuples seen =
  to_var_dict_loop rest (tuples ++ pre) (seen ∪ list_to_set pre.*1).
Proof.
  intros Hnames. revert tuples seen.
  induction Hnames as [|[k v] pre Hk _ IH]; intros tuples seen Hnd Hseen.
  - simpl. rewrite app_nil_r. f_equal. set_solver.
  - simpl in Hk. rewrite fmap_cons, NoDup_cons in Hnd.
    destruct Hnd as [Hkpre Hnd].
    cbn [fmap list_fmap app to_var_dict_loop].
    unfold py_typecheck.check_type; cbn [as_Variable mbind result_bind snd].
    rewrite Hk, last_two_suffix, drop_last_two_suffix. simpl.
    destruct (decide (k ∈ seen)) as [Hin|_].
    { exfalso. apply (Hseen k); [|done]. simpl. left. }
    rewrite IH; [|done|].
    + rewrite <-app_assoc. simpl. f_equal. set_solver.
    + intros k' Hk'. rewrite not_elem_of_union, not_elem_of_singleton.
      split; [apply Hseen; simpl; by right|]. by intros ->.
Qed.

Lemma to_var_dict_prefix pre rest :
  Forall (λ e, name e.2 = e.1 +:+ ":0") pre →
  NoDup pre.*1 →
  to_var_dict (((λ e, IsVariable e.2) <$> pre) ++ rest) =
    tuples ← to_var_dict_loop rest pre (list_to_set pre.*1);
    Ok (collections.OrderedDict tuples).
Proof.
  intros Hnames Hnd. unfold to_var_dict.
  rewrite to_var_dict_loop_clean by (done || set_solver).
  simpl. do 2 f_equal. set_solver.
Qed.
End to_var_dict.

(** C4.  On variables whose names are [k ++ ":0"] for pairwise distinct [k],
    [to_var_dict] returns the ordered mapping of each [k] to its variable, in
    the order of the input. *)
Theorem to_var_dict_returns (entries : list (string * tf_Variable)) :
  Forall (λ e, name e.2 = e.1 +:+ ":0") entries →
  NoDup entries.*1 →
  to_var_dict ((λ e, IsVariable e.2) <$> entries) = Ok entries.
Proof.
  intros Hnames Hnd.
  rewrite <-(app_nil_r (_ <$> entries)), to_var_dict_prefix by done.
  simpl. by rewrite OrderedDict_NoDup.
Qed.

(** C3.  After a prefix of variables with distinct well-formed names, the
    first element that is not a variable raises [TypeError], the first
    variable whose name does not end in [":0"] raises the naming error, and
    the first variable whose stripped name was already met raises the
    duplicate-name error; what follows the offending element plays no part. *)
Theorem to_var_dict_raises (pre : list (string * tf_Variable))
    (v : element) (post : list element) :
  Forall (λ e, name e.2 = e.1 +:+ ":0") pre →
  NoDup pre.*1 →
  let variables := ((λ e, IsVariable e.2) <$> pre) ++ v :: post in
  (v = NotVariable → to_var_dict variables = Raise TypeError) ∧
  (∀ x, v = IsVariable x → (¬ ∃ k, name x = k +:+ ":0") →
    to_var_dict variables = Raise (unexpected_name (name x))) ∧
  (∀ x k, v = IsVariable x → name x = k +:+ ":0" → k ∈ pre.*1 →
    to_var_dict variables = Raise (multiple_variables k)).
Proof.
  intros Hnames Hnd variables. unfold variables.
  rewrite to_var_dict_prefix by done. split; [|split].
  - by intros ->.
  - intros x -> Hx. simpl. unfold py_typecheck.check_type; simpl.
    by rewrite eqb_last_two_false.
  - intros x k -> Hx Hk. simpl. unfold py_typecheck.check_type; simpl.
    rewrite Hx, last_two_suffix, drop_last_two_suffix. simpl.
    destruct (decide _) as [_|Hn]; [done|].
    exfalso. apply Hn. by apply elem_of_list_to_set.
Qed.

(** ** Order of strings and sorted items *)

Section string_order.
Implicit Types (a b c : string).

Lemma leb_iff a b :
  String.leb a b = true ↔ a = b ∨ String_as_OT.lt a b.
Proof.
  unfold String.leb. destruct (String.compare a b) eqn:Hc.
  - apply String_as_OT.cmp_eq in Hc. split; [by left|done].
  - apply String_as_OT.cmp_lt in Hc. split; [by right|done].
  - split; [done|]. intros [->|Hlt].
    + assert (String.compare b b = Eq) as He
        by by apply String_as_OT.cmp_eq.
      congruence.
    + apply String_as_OT.cmp_lt in Hlt.
      unfold String_as_OT.cmp in Hlt. congruence.
Qed.

Lemma ltb_iff a b : string_lt a b ↔ String_as_OT.lt a b.
Proof.
  unfold string_lt, String.ltb. rewrite <-String_as_OT.cmp_lt.
  unfold String_as_OT.cmp. destruct (String.compare a b); split; done.
Qed.

Lemma leb_trans a b c :
  String.leb a b = true → String.leb b c = true → String.leb a c = true.
Proof.
  rewrite !leb_iff. intros [->|Hab] [->|Hbc]; auto.
  right. by eapply String_as_OT.lt_trans.
Qed.

Lemma leb_false a b : String.leb a b = false → String.leb b a = true.
Proof. intros H. destruct (String.leb_total a b); congruence. Qed.

Lemma leb_ne_lt a b : String.leb a b = true → a ≠ b → string_lt a b.
Proof. rewrite leb_iff, ltb_iff. by intros [->|?]. Qed.
End string_order.

Section sorted_order.
Context {V : Type}.
Implicit Types (x : string * V) (l : list (string * V)).

Local Abbreviation R := (λ x y : string * V, String.leb x.1 y.1 = true).

Lemma insert_item_sorted x l :
  StronglySorted R l → StronglySorted R (python.insert_item x l).
Proof.
  induction 1 as [|y l Hl IH Hy]; simpl.
  - repeat constructor.
  - destruct (String.leb x.1 y.1) eqn:Hxy.
    + constructor; [by constructor|]. constructor; [done|].
      eapply Forall_impl; [exact Hy|]. intros z Hz.
      by eapply leb_trans.
    + constructor; [done|]. rewrite insert_item_Permutation.
      constructor; [by apply leb_false|done].
Qed.

Lemma sorted_sorted l : StronglySorted R (python.sorted l).
Proof.
  induction l as [|x l IH]; simpl; [constructor|].
  by apply insert_item_sorted.
Qed.

Lemma sorted_keys_strict l :
  StronglySorted R l → NoDup l.*1 → StronglySorted string_lt l.*1.
Proof.
  induction 1 as [|x l Hl IH Hx]; simpl; [constructor|].
  rewrite NoDup_cons. intros [Hxl Hnd]. constructor; [by apply IH|].
  rewrite Forall_fmap. rewrite Forall_forall in Hx |- *.
  intros y Hy. simpl. apply leb_ne_lt; [by apply Hx|].
  intros Heq. apply Hxl. rewrite Heq. by apply list_elem_of_fmap_2.
Qed.
End sorted_order.

(** ** to_odict *)

Section to_odict.
Context {V : Type}.
Implicit Types (d : gmap key V) (l items : list (string * V)).

Lemma to_odict_loop_strings l items :
  to_odict_loop (prod_map KStr id <$> l) items = Ok (items ++ l).
Proof.
  revert items. induction l as [|[s v] l IH]; intros items; simpl.
  - by rewrite app_nil_r.
  - unfold py_typecheck.check_type; simpl.
    by rewrite IH, <-app_assoc.
Qed.

Lemma to_odict_loop_non_string (iteritems : list (key * V)) items n v :
  (KInt n, v) ∈ iteritems →
  to_odict_loop iteritems items = Raise TypeError.
Proof.
  revert items. induction iteritems as [|[k w] rest IH]; intros items Hin.
  - by apply elem_of_nil in Hin.
  - apply elem_of_cons in Hin as [Heq|Hin]; simpl.
    + by simplify_eq.
    + destruct k as [s|m]; unfold py_typecheck.check_type; simpl; [|done].
      by apply IH.
Qed.

(** The items of a dict whose keys are all strings. *)
Lemma string_items d :
  (∀ k, is_Some (d !! k) → ∃ s, k = KStr s) →
  ∃ l, map_to_list d = prod_map KStr id <$> l.
Proof.
  intros Hd.
  assert (Forall (λ kv : key * V, ∃ s, kv.1 = KStr s) (map_to_list d))
    as Hall.
  { apply Forall_forall. intros [k v] Hkv.
    apply elem_of_map_to_list in Hkv. apply Hd. by exists v. }
  induction Hall as [|[k v] rest [s Hs] _ [l Hl]].
  - by exists [].
  - simpl in Hs. subst k. exists ((s, v) :: l). by rewrite Hl.
Qed.

Lemma KStr_items_elem l s v :
  (KStr s, v) ∈ prod_map KStr id <$> l ↔ (s, v) ∈ l.
Proof.
  rewrite list_elem_of_fmap. split.
  - intros ([s' v'] & Heq & Hin). by simplify_eq/=.
  - intros Hin. by exists (s, v).
Qed.

Lemma KStr_items_keys l :
  NoDup (prod_map KStr id <$> l).*1 → NoDup l.*1.
Proof.
  rewrite <-list_fmap_compose.
  intros Hnd. apply (NoDup_fmap_1 KStr).
  rewrite <-list_fmap_compose.
  erewrite list_fmap_ext; [exact Hnd|]. by intros ? [].
Qed.
End to_odict.

(** C6.  An [OrderedDict] is returned as it is.  A plain dict whose keys are
    all strings gives an [OrderedDict] with exactly the key-value pairs of
    the dict, the keys in strictly increasing lexicographic order. *)
Theorem to_odict_returns {V : Type} :
  (∀ items : list (key * V), to_odict (AnOrderedDict items) = Ok items) ∧
  (∀ d : gmap key V,
    (∀ k, is_Some (d !! k) → ∃ s, k = KStr s) →
    ∃ items : list (string * V),
      to_odict (ADict d) = Ok (prod_map KStr id <$> items) ∧
      (∀ s v, (s, v) ∈ items ↔ d !! KStr s = Some v) ∧
      StronglySorted string_lt items.*1).
Proof.
  split; [done|]. intros d Hd.
  destruct (string_items d Hd) as [l Hl].
  assert (NoDup l.*1) as Hnd.
  { apply KStr_items_keys. rewrite <-Hl. apply NoDup_fst_map_to_list. }
  assert (NoDup (python.sorted l).*1) as Hnds
    by by rewrite sorted_Permutation.
  exists (python.sorted l). split; [|split].
  - unfold to_odict, py_typecheck.check_type; simpl.
    rewrite Hl, to_odict_loop_strings. simpl.
    by rewrite OrderedDict_NoDup.
  - intros s v. rewrite sorted_Permutation, <-KStr_items_elem, <-Hl.
    apply elem_of_map_to_list.
  - apply sorted_keys_strict; [apply sorted_sorted|done].
Qed.

(** C5, as the code has it.  [to_odict] raises [TypeError] on a value that is
    not a dict, and on a plain dict one of whose keys is not a string. *)
Theorem to_odict_raises {V : Type} (d : mapping_arg V) :
  (d = NotADict ∨ ∃ m n, d = ADict m ∧ is_Some (m !! KInt n)) →
  to_odict d = Raise TypeError.
Proof.
  intros [->|(m & n & -> & [v Hv])]; [done|].
  unfold to_odict, py_typecheck.check_type; simpl.
  erewrite to_odict_loop_non_string; [done|].
  by apply elem_of_map_to_list.
Qed.

(** C5 as stated fails: an [OrderedDict] with a key that is not a string is
    returned, not refused. *)
Lemma to_odict_stated_fails :
  ¬ to_odict_stated (AnOrderedDict [(KInt 1, 0)]).
Proof.
  unfold to_odict_stated. intros H.
  assert (to_odict (AnOrderedDict [(KInt 1, 0)]) = Raise TypeError) as Hc.
  { apply H. right. exists 1, 0. apply list_elem_of_here. }
  discriminate Hc.
Qed.


(** ** metrics_sum *)

Section scope_names.
Import variables.
Context `{!arithmetic}.
Implicit Types (g : graph) (n prefix scope : string) (name : option string).

Lemma name_scope_default g : name_scope g "metrics_sum" = Ok ().
Proof. unfold name_scope. by destruct (decide _). Qed.

Lemma name_scope_Ok g n :
  name_scope g n = Ok () ↔
  (if decide (name_stack g = "") then valid_op_name n
   else valid_scope_name n) = true.
Proof.
  unfold name_scope.
  destruct (if decide (name_stack g = "") then valid_op_name n
            else valid_scope_name n); split; done.
Qed.

Lemma variable_scope_accepted g name :
  scope_name_accepted g name →
  variable_scope name "metrics_sum" g =
    Ok (scope_entered g name, open_variable_scope (scope_entered g name) g).
Proof.
  unfold variable_scope, scope_entered. destruct name as [n|]; simpl.
  - intros [->|Hv]; [done|].
    destruct (decide (n = "")); [done|].
    apply name_scope_Ok in Hv. by rewrite Hv.
  - intros _. by rewrite name_scope_default.
Qed.

Lemma variable_scope_rejected g name :
  ¬ scope_name_accepted g name →
  ∃ msg, variable_scope name "metrics_sum" g = Raise (ValueError msg).
Proof.
  destruct name as [n|]; simpl; [|by intros []].
  intros Hn. unfold variable_scope.
  destruct (decide (n = "")) as [->|_]; [exfalso; apply Hn; by left|].
  unfold name_scope.
  destruct (if decide (name_stack g = "") then valid_op_name n
            else valid_scope_name n) eqn:Hv.
  - exfalso. apply Hn. by right.
  - simpl. by eexists.
Qed.

Lemma variable_scope_Ok g name scope g' :
  variable_scope name "metrics_sum" g = Ok (scope, g') →
  scope_name_accepted g name ∧ scope = scope_entered g name ∧
  g' = open_variable_scope scope g.
Proof.
  intros Hvs.
  assert (scope_name_accepted g name) as Hacc.
  { destruct name as [n|]; simpl; [|done].
    destruct (decide (n = "")) as [->|Hne]; [by left|]. right.
    unfold variable_scope in Hvs. rewrite decide_False in Hvs by done.
    apply name_scope_Ok. by destruct (name_scope g n) as [[]|e]. }
  rewrite (variable_scope_accepted g name Hacc) in Hvs.
  by injection Hvs as <- <-.
Qed.

Lemma entered_dom g scope :
  entered g scope ≠ 0%nat → scope ∈ dom (scope_count g).
Proof.
  unfold entered. intros Hne. apply elem_of_dom.
  by destruct (scope_count g !! scope).
Qed.

Lemma join_inj old n1 n2 : join old n1 = join old n2 → n1 = n2.
Proof.
  unfold join. destruct (decide (old = "")); [done|].
  intros Heq. by apply (inj (String.app old)), (inj (String.app "/")) in Heq.
Qed.

Lemma first_unused_entered g prefix fuel idx :
  entered g (join (scope_name g) (first_unused g prefix fuel idx)) ≠ 0%nat →
  ∀ i, (idx ≤ i ≤ idx + fuel)%nat →
    entered g (join (scope_name g) (prefix +:+ "_" +:+ pretty i)) ≠ 0%nat.
Proof.
  revert idx. induction fuel as [|fuel IH]; intros idx Hent i Hi;
    simpl in Hent.
  - by assert (i = idx) as -> by lia.
  - destruct (decide _) as [Hz|Hnz]; [done|].
    destruct (decide (i = idx)) as [->|Hne]; [done|].
    apply (IH (S idx)); [done|lia].
Qed.

(** The search for a default scope name never runs out of candidates: the
    scope it names was not entered before. *)
Lemma unique_default_name_fresh g prefix :
  entered g (join (scope_name g) (unique_default_name g prefix)) = 0%nat.
Proof.
  unfold unique_default_name. destruct (decide _) as [|_]; [done|].
  destruct (decide (entered g (join (scope_name g)
    (first_unused g prefix (size (scope_count g)) 1)) = 0%nat))
    as [|Hn]; [done|].
  exfalso. pose proof (first_unused_entered _ _ _ _ Hn) as Hall.
  set (names := (λ i : nat,
                   join (scope_name g) (prefix +:+ "_" +:+ pretty i)) <$>
                  seq 1 (S (size (scope_count g)))).
  assert (NoDup names) as Hnd.
  { apply NoDup_fmap_2; [|apply NoDup_seq]. intros i j Hij.
    apply join_inj in Hij.
    by apply (inj (String.app prefix)), (inj (String.app "_")),
      (inj pretty) in Hij. }
  assert (list_to_set names ⊆ dom (scope_count g)) as Hsub.
  { intros k Hk.
    apply elem_of_list_to_set, list_elem_of_fmap in Hk as (i & -> & Hi).
    apply elem_of_seq in Hi. apply entered_dom, Hall. lia. }
  apply subseteq_size in Hsub.
  rewrite size_list_to_set, size_dom in Hsub by done.
  unfold names in Hsub. rewrite length_fmap, length_seq in Hsub. lia.
Qed.
End scope_names.

Section get_variable.
Import variables.
Context `{!arithmetic}.
Implicit Types (g : graph) (n : string) (dt : dtype) (shape : TensorShape).

Lemma is_compatible_with_refl shape : is_compatible_with shape shape = true.
Proof.
  unfold is_compatible_with. destruct (dims shape) as [xs|]; [|done].
  rewrite Nat.eqb_refl. simpl.
  induction xs as [|d xs IH]; simpl; [done|]. rewrite IH, andb_true_r.
  unfold dimension_compatible. destruct (value d); [apply Z.eqb_refl|done].
Qed.

Lemma get_variable_new n shape dt init colls tr g :
  store g !! full_name (scope_name g) n = None →
  reuse g ≠ reuse_True →
  get_variable n shape dt init colls tr g =
    Ok (full_name (scope_name g) n,
        {| store :=
             <[full_name (scope_name g) n :=
                 {| var_shape := shape; var_dtype := dt;
                    initial_value := init dt; trainable := tr;
                    collections :=
                      default [GLOBAL_VARIABLES] colls ++
                      (if tr then [TRAINABLE_VARIABLES] else []) |}]>
               (store g);
           scope_count := scope_count g;
           reuse := reuse g;
           scope_name := scope_name g;
           name_stack := name_stack g |}).
Proof.
  intros Hnone Hreuse. unfold get_variable. rewrite Hnone.
  by destruct (reuse g).
Qed.

Lemma get_variable_exists_no_reuse n shape dt init colls tr g v :
  store g !! full_name (scope_name g) n = Some v →
  reuse g = reuse_False →
  ∃ msg, get_variable n shape dt init colls tr g = Raise (ValueError msg).
Proof.
  intros Hsome Hreuse. unfold get_variable. rewrite Hsome, Hreuse.
  by eexists.
Qed.

Lemma get_variable_exists_reuse n shape dt init colls tr g v :
  store g !! full_name (scope_name g) n = Some v →
  reuse g ≠ reuse_False →
  is_compatible_with shape (var_shape v) = true →
  var_dtype v = dt →
  get_variable n shape dt init colls tr g =
    Ok (full_name (scope_name g) n, g).
Proof.
  intros Hsome Hreuse Hshape Hdt. unfold get_variable.
  rewrite Hsome, Hshape. simpl.
  destruct (reuse g); [done|..]; by rewrite decide_True.
Qed.

(** After a call that returned, the variable is in the store with the
    requested element type and a shape compatible with the requested one;
    the scope in force is as before. *)
Lemma get_variable_Ok n shape dt init colls tr g r g' :
  get_variable n shape dt init colls tr g = Ok (r, g') →
  r = full_name (scope_name g) n ∧
  reuse g' = reuse g ∧ scope_count g' = scope_count g ∧
  scope_name g' = scope_name g ∧ name_stack g' = name_stack g ∧
  ∃ v, store g' !! r = Some v ∧ var_dtype v = dt ∧
       is_compatible_with shape (var_shape v) = true.
Proof.
  unfold get_variable.
  destruct (store g !! full_name (scope_name g) n) as [v|] eqn:Hv.
  - destruct (reuse g) eqn:Hr; [done|..];
      (destruct (is_compatible_with shape (var_shape v)) eqn:Hshape;
         simpl; [|done]);
      (case_decide; [|done]); intros [= <- <-];
      repeat (split; [done|]); by exists v.
  - destruct (reuse g) eqn:Hr; [|done|]; intros [= <- <-]; simpl;
      repeat (split; [done|]); eexists;
      (split; [apply lookup_insert_eq|]); simpl;
      (split; [done|apply is_compatible_with_refl]).
Qed.
End get_variable.

Section metrics_sum.
Import variables.
Context `{!arithmetic} {F : Type}.
Implicit Types (values : tensor F) (g : graph) (name : option string).

Lemma metrics_sum_first values name g :
  let sum_var := full_name (scope_entered g name) "sum" in
  let dt := tensor_dtype values in
  scope_name_accepted g name →
  store g !! sum_var = None →
  reuse g ≠ reuse_True →
  numeric dt = true →
  ∃ g',
    metrics_sum values name g =
      Ok ((sum_var,
           Build_assign_add sum_var dt
             (λ feed, reduce_sum dt (eval values feed))), g') ∧
    store g' =
      <[sum_var := {| var_shape := scalar_shape; var_dtype := dt;
                      initial_value := zeros dt; trainable := false;
                      collections := [LOCAL_VARIABLES] |}]> (store g).
Proof.
  intros sum_var dt Hacc Hnone Hreuse Hnum. unfold metrics_sum.
  rewrite (variable_scope_accepted g name Hacc). cbn [mbind result_bind].
  rewrite get_variable_new by done. cbn [mbind result_bind].
  unfold reduce_sum_op. fold dt. rewrite Hnum. cbn [mbind result_bind].
  eexists. split; [done|]. done.
Qed.

Lemma metrics_sum_not_numeric values name g :
  let sum_var := full_name (scope_entered g name) "sum" in
  scope_name_accepted g name →
  store g !! sum_var = None →
  reuse g ≠ reuse_True →
  numeric (tensor_dtype values) = false →
  metrics_sum values name g = Raise TypeError.
Proof.
  intros sum_var Hacc Hnone Hreuse Hnum. unfold metrics_sum.
  rewrite (variable_scope_accepted g name Hacc). cbn [mbind result_bind].
  rewrite get_variable_new by done. cbn [mbind result_bind].
  unfold reduce_sum_op. by rewrite Hnum.
Qed.

Lemma metrics_sum_Ok values name g r g1 :
  metrics_sum values name g = Ok (r, g1) →
  let scope := scope_entered g name in
  let sum_var := full_name scope "sum" in
  let dt := tensor_dtype values in
  scope_name_accepted g name ∧ numeric dt = true ∧
  r = (sum_var,
       Build_assign_add sum_var dt
         (λ feed, reduce_sum dt (eval values feed))) ∧
  reuse g1 = reuse g ∧ scope_name g1 = scope_name g ∧
  name_stack g1 = name_stack g ∧
  scope_count g1 =
    map_imap
      (λ k n, Some (if String.prefix (scope +:+ "/") k then 0%nat else n))
      (<[scope := S (entered g scope)]> (scope_count g)) ∧
  ∃ v, store g1 !! sum_var = Some v ∧ var_dtype v = dt ∧
       is_compatible_with scalar_shape (var_shape v) = true.
Proof.
  unfold metrics_sum.
  destruct (variable_scope name "metrics_sum" g) as [[scope g_in]|e]
    eqn:Hvs; [|done].
  cbn [mbind result_bind].
  apply variable_scope_Ok in Hvs as (Hacc & -> & ->).
  destruct (get_variable "sum" _ _ _ _ _ _) as [[sv g_in]|e] eqn:Hg;
    [|done].
  cbn [mbind result_bind]. unfold reduce_sum_op.
  destruct (numeric (tensor_dtype values)) eqn:Hnum; [|done].
  cbn [mbind result_bind]. intros [= <- <-].
  apply get_variable_Ok in Hg as (-> & Hre & Hsc & _ & _ & v & Hv & Hdt & Hs).
  simpl in *. repeat (split; [done|]).
  split; [by rewrite Hsc|]. by exists v.
Qed.

Lemma metrics_sum_again_reuse values n g v :
  scope_name_accepted g (Some n) →
  store g !! full_name (scope_entered g (Some n)) "sum" = Some v →
  var_dtype v = tensor_dtype values →
  is_compatible_with scalar_shape (var_shape v) = true →
  reuse g ≠ reuse_False →
  numeric (tensor_dtype values) = true →
  ∃ r2 g2, metrics_sum values (Some n) g = Ok (r2, g2) ∧
    r2.1 = full_name (scope_entered g (Some n)) "sum" ∧ store g2 = store g.
Proof.
  intros Hacc Hv Hdt Hshape Hre Hnum. unfold metrics_sum.
  rewrite (variable_scope_accepted g (Some n) Hacc). cbn [mbind result_bind].
  erewrite get_variable_exists_reuse; [|exact Hv|exact Hre|exact Hshape|
    exact Hdt].
  cbn [mbind result_bind]. unfold reduce_sum_op. rewrite Hnum.
  cbn [mbind result_bind]. by do 2 eexists.
Qed.

Lemma metrics_sum_again_no_reuse values n g v :
  scope_name_accepted g (Some n) →
  store g !! full_name (scope_entered g (Some n)) "sum" = Some v →
  reuse g = reuse_False →
  ∃ msg, metrics_sum values (Some n) g = Raise (ValueError msg).
Proof.
  intros Hacc Hv Hre. unfold metrics_sum.
  rewrite (variable_scope_accepted g (Some n) Hacc). cbn [mbind result_bind].
  destruct (get_variable_exists_no_reuse "sum" scalar_shape
    (tensor_dtype values) zeros_initializer (Some [LOCAL_VARIABLES]) false
    (open_variable_scope (scope_entered g (Some n)) g) v Hv Hre)
    as [msg Hmsg].
  rewrite Hmsg. by exists msg.
Qed.

Lemma metrics_sum_rejected values name g :
  ¬ scope_name_accepted g name →
  ∃ msg, metrics_sum values name g = Raise (ValueError msg).
Proof.
  intros Hn. destruct (variable_scope_rejected g name Hn) as [msg Hmsg].
  unfold metrics_sum. rewrite Hmsg. by exists msg.
Qed.

Lemma initializer_zero g (sess : gmap string number) sum_var v :
  store g !! sum_var = Some v →
  LOCAL_VARIABLES ∈ collections v →
  local_variables_initializer g sess !! sum_var = Some (initial_value v).
Proof.
  intros Hv Hloc. unfold local_variables_initializer.
  apply lookup_union_Some_l. rewrite lookup_fmap.
  erewrite map_lookup_filter_Some_2; [done|exact Hv|done].
Qed.

Lemma run_assign_add (op : assign_add F) feed (sess : gmap string number)
    acc :
  sess !! ref op = Some acc →
  run op feed sess =
    Ok (add (ref_dtype op) acc (operand op feed),
        <[ref op := add (ref_dtype op) acc (operand op feed)]> sess).
Proof. intros Hacc. unfold run. by rewrite Hacc. Qed.
End metrics_sum.


(** * Instances on concrete inputs *)

Example same_dimension_examples :
  same_dimension None None = true ∧
  same_dimension None (Some {| value := Some 3 |}) = false ∧
  same_dimension (Some {| value := Some 3 |}) (Some {| value := Some 3 |})
    = true ∧
  same_dimension (Some {| value := Some 3 |}) (Some {| value := Some 4 |})
    = false ∧
  same_dimension (Some {| value := None |}) (Some {| value := None |})
    = true.
Proof. repeat split. Qed.

Example same_shape_examples :
  same_shape {| dims := None |} {| dims := None |} = true ∧
  same_shape {| dims := Some [{| value := Some 2 |}] |}
             {| dims := Some [{| value := Some 2 |}; {| value := None |}] |}
    = false ∧
  same_shape {| dims := Some [{| value := Some 2 |}; {| value := None |}] |}
             {| dims := Some [{| value := Some 2 |}; {| value := None |}] |}
    = true.
Proof. repeat split. Qed.

Example is_scalar_examples :
  is_scalar (TensorLike {| dims := Some [{| value := Some 1 |}] |}) = Ok true ∧
  is_scalar (TensorLike {| dims := Some [{| value := Some 1 |};
                                         {| value := Some 2 |}] |})
    = Ok false ∧
  is_scalar (TensorLike {| dims := Some [{| value := None |}] |}) = Ok false ∧
  is_scalar NotTensor = Raise TypeError_expected_tensor.
Proof. repeat split. Qed.

(** The dict of a structure is flattened in key order. *)
Example flatten_example :
  nest.flatten
    (Seq PyTuple [Leaf 1; Dict [("b"%string, Leaf 2); ("a"%string, Leaf 3)]])
  = [1; 3; 2].
Proof. reflexivity. Qed.

Example to_odict_example :
  to_odict (ADict (<[KStr "b" := 2]> (<[KStr "a" := 1]> ∅))) =
    Ok [(KStr "a", 1); (KStr "b", 2)].
Proof. vm_compute. reflexivity. Qed.

(** Two structures that differ only in the last leaf: the first two pairs
    are compared and accepted, the third is raised. *)
Lemma check_nested_equal_spec_witness :
  check_nested_equal
    (Seq PyList [Leaf 1; Dict [("b"%string, Leaf 2); ("a"%string, Leaf 3)]])
    (Seq PyList [Leaf 1; Dict [("a"%string, Leaf 3); ("b"%string, Leaf 5)]])
    Z.eqb
  = ([(1, 1); (3, 3); (2, 5)], Raise (ValueError_differ 2 5)).
Proof.
  refine (proj1 (proj2 (proj2
    (check_nested_equal_spec Z.eqb
      (Seq PyList [Leaf 1; Dict [("b"%string, Leaf 2); ("a"%string, Leaf 3)]])
      (Seq PyList [Leaf 1; Dict [("a"%string, Leaf 3); ("b"%string, Leaf 5)]]))
    _)) [(1, 1); (3, 3)] 2 5 [] eq_refl _ eq_refl).
  - apply assert_same_structure_Ok. reflexivity.
  - repeat constructor.
Defined.


Lemma to_var_dict_returns_witness :
  to_var_dict
    [IsVariable {| name := "dense/kernel:0"; var_id := 0 |};
     IsVariable {| name := "dense/bias:0"; var_id := 1 |}]
  = Ok [("dense/kernel"%string, {| name := "dense/kernel:0"; var_id := 0 |});
        ("dense/bias"%string, {| name := "dense/bias:0"; var_id := 1 |})].
Proof.
  apply (to_var_dict_returns
    [("dense/kernel"%string, {| name := "dense/kernel:0"; var_id := 0 |});
     ("dense/bias"%string, {| name := "dense/bias:0"; var_id := 1 |})]).
  - repeat constructor.
  - apply (bool_decide_unpack _). vm_compute. exact I.
Defined.

(** The second variable has the stripped name of the first; the value after
    it, which is not a variable, is never looked at. *)
Lemma to_var_dict_raises_witness :
  to_var_dict
    [IsVariable {| name := "w:0"; var_id := 0 |};
     IsVariable {| name := "w:0"; var_id := 1 |};
     NotVariable]
  = Raise (multiple_variables "w").
Proof.
  refine (proj2 (proj2
    (to_var_dict_raises
      [("w"%string, {| name := "w:0"; var_id := 0 |})]
      (IsVariable {| name := "w:0"; var_id := 1 |})
      [NotVariable] _ _))
    {| name := "w:0"; var_id := 1 |} "w"%string eq_refl eq_refl _).
  - repeat constructor.
  - apply (bool_decide_unpack _). vm_compute. exact I.
  - apply list_elem_of_here.
Defined.

Lemma to_odict_raises_witness :
  to_odict (ADict (<[KInt 3 := 7]> ∅)) = Raise TypeError.
Proof.
  apply (to_odict_raises (ADict (<[KInt 3 := 7]> ∅))).
  right. exists (<[KInt 3 := 7]> ∅), 3. split; [reflexivity|].
  exists 7. apply lookup_insert_eq.
Defined.

Lemma to_odict_returns_witness :
  ∃ items : list (string * Z),
    to_odict (ADict (<[KStr "b" := 2]> (<[KStr "a" := 1]> ∅))) =
      Ok (prod_map KStr id <$> items) ∧
    (∀ s v, (s, v) ∈ items ↔
       (<[KStr "b" := 2]> (<[KStr "a" := 1]> ∅) : gmap key Z) !! KStr s
         = Some v) ∧
    StronglySorted string_lt items.*1.
Proof.
  apply (proj2 (to_odict_returns (V := Z))).
  intros [s|n] Hk; [by exists s|].
  rewrite !lookup_insert_ne, lookup_empty in Hk by done.
  by destruct Hk.
Defined.




(** * Further properties *)

(** ** Shapes *)

Lemma same_dimension_eq (a b : option Dimension) :
  same_dimension a b = true ↔ a = b.
Proof.
  destruct a as [[va]|], b as [[vb]|]; unfold same_dimension; simpl;
    rewrite ?bool_decide_eq_true; split; congruence.
Qed.

Lemma forallb_zip_eq (xs ys : list Dimension) :
  length xs = length ys →
  forallb (λ ab, same_dimension (Some ab.1) (Some ab.2)) (zip xs ys) = true ↔
  xs = ys.
Proof.
  revert ys. induction xs as [|d xs IH]; intros [|e ys] Hl; simpl in *;
    try done.
  rewrite andb_true_iff, same_dimension_eq, IH by lia.
  split; [intros [[= ->] ->]; done|intros [= -> ->]; done].
Qed.

Lemma same_shape_eq (x y : TensorShape) : same_shape x y = true ↔ x = y.
Proof.
  destruct x as [[xs|]], y as [[ys|]]; unfold same_shape, ndims; simpl;
    try (split; [done|congruence]).
  case_bool_decide as Hl; simpl.
  - rewrite forallb_zip_eq by congruence. split; congruence.
  - split; [done|]. intros [= ->]. done.
Qed.

(** X1.  [same_shape] and [same_dimension] decide equality of their
    arguments: [same_shape x y] holds exactly when [x] and [y] have the same
    [dims], [same_dimension a b] exactly when [a] and [b] are both [None] or
    [Dimension]s of the same [value].  Both are therefore reflexive and
    transitive. *)
Theorem same_shape_decides_equality :
  (∀ x y : TensorShape, same_shape x y = true ↔ x = y) ∧
  (∀ a b : option Dimension, same_dimension a b = true ↔ a = b) ∧
  (∀ x : TensorShape, same_shape x x = true) ∧
  (∀ x y z : TensorShape,
    same_shape x y = true → same_shape y z = true → same_shape x z = true).
Proof.
  split; [exact same_shape_eq|]. split; [exact same_dimension_eq|]. split.
  - intros x. by apply same_shape_eq.
  - intros x y z. rewrite !same_shape_eq. congruence.
Qed.

Lemma num_elements_nonneg (ds : list Dimension) m :
  Forall (λ d, ∀ n, value d = Some n → 0 ≤ n) ds →
  num_elements ds = Some m → 0 ≤ m.
Proof.
  intros Hds. revert m. induction Hds as [|d ds Hd _ IH]; intros m; simpl.
  - intros [= <-]. lia.
  - destruct (value d) as [n|]; [|done].
    destruct (num_elements ds) as [m'|]; [|done].
    intros [= <-]. specialize (Hd n eq_refl). specialize (IH m' eq_refl). nia.
Qed.

Lemma all_dims_one_num_elements (ds : list Dimension) :
  Forall (λ d, ∀ n, value d = Some n → 0 ≤ n) ds →
  Forall (λ d, value d = Some 1) ds ↔ num_elements ds = Some 1.
Proof.
  induction 1 as [|d ds Hd Hds IH]; simpl.
  - split; [done|constructor].
  - rewrite Forall_cons, IH. split.
    + intros [-> ->]. done.
    + destruct (value d) as [n|]; [|done].
      destruct (num_elements ds) as [m|] eqn:Hm; [|done].
      intros [= Hnm]. specialize (Hd n eq_refl).
      pose proof (num_elements_nonneg ds m Hds Hm).
      destruct (Z.eq_mul_1_nonneg n m Hd Hnm) as [-> ->]. done.
Qed.

(** X2.  On a tensor whose shape has a known rank and dimensions that are not
    negative, [is_scalar] answers true exactly when the shape has one element:
    every size is known and their product is 1. *)
Theorem is_scalar_one_element (s : TensorShape) (ds : list Dimension) :
  dims s = Some ds →
  Forall (λ d, ∀ n, value d = Some n → 0 ≤ n) ds →
  is_scalar (TensorLike s) = Ok true ↔ num_elements ds = Some 1.
Proof.
  intros Hs Hds. rewrite <-(all_dims_one_num_elements ds Hds).
  unfold is_scalar; simpl. unfold tensor_shape.iter. rewrite Hs. simpl.
  rewrite forallb_dims_one. unfold all_dims_one.
  split.
  - intros [= H]. by apply bool_decide_eq_true in H.
  - intros H. by rewrite bool_decide_eq_true_2.
Qed.

Lemma is_scalar_one_element_witness :
  is_scalar (TensorLike {| dims := Some [{| value := Some 1 |};
                                         {| value := Some 1 |}] |}) = Ok true.
Proof.
  apply (is_scalar_one_element
    {| dims := Some [{| value := Some 1 |}; {| value := Some 1 |}] |}
    [{| value := Some 1 |}; {| value := Some 1 |}] eq_refl).
  - repeat constructor; intros n [= <-]; lia.
  - reflexivity.
Defined.

(** ** to_var_dict *)

Lemma to_var_dict_loop_Ok (variables : list element)
    (tuples : list (string * tf_Variable)) (seen : gset string) r :
  to_var_dict_loop variables tuples seen = Ok r →
  ∃ new, r = tuples ++ new ∧
    variables = (λ e, IsVariable e.2) <$> new ∧
    Forall (λ e, name e.2 = e.1 +:+ ":0") new ∧
    NoDup new.*1 ∧ (∀ k, k ∈ new.*1 → k ∉ seen).
Proof.
  revert tuples seen. induction variables as [|v vs IH]; intros tuples seen.
  - simpl. intros [= <-]. exists []. rewrite app_nil_r.
    repeat split; try constructor. intros k Hk. by apply elem_of_nil in Hk.
  - cbn [to_var_dict_loop]. destruct v as [x|]; [|done].
    unfold py_typecheck.check_type; cbn [as_Variable mbind result_bind].
    destruct (String.eqb (python.last_two (name x)) ":0") eqn:Hsuf;
      [|done]. simpl.
    apply String.eqb_eq, last_two_inv in Hsuf.
    destruct (decide _) as [|Hfresh]; [done|]. intros Hloop.
    apply IH in Hloop as (new & -> & -> & Hnames & Hnd & Hseen).
    exists ((python.drop_last_two (name x), x) :: new).
    rewrite <-app_assoc. split; [done|]. split; [done|].
    split; [by constructor|]. split.
    + simpl. constructor; [|done]. intros Hk. apply (Hseen _ Hk). set_solver.
    + intros k Hk. simpl in Hk. apply elem_of_cons in Hk as [->|Hk]; [done|].
      specialize (Hseen k Hk). set_solver.
Qed.

Lemma to_var_dict_Ok (variables : list element) d :
  to_var_dict variables = Ok d →
  variables = (λ e, IsVariable e.2) <$> d ∧
  Forall (λ e, name e.2 = e.1 +:+ ":0") d ∧ NoDup d.*1.
Proof.
  unfold to_var_dict.
  destruct (to_var_dict_loop variables [] ∅) as [tuples|e] eqn:Hloop;
    [|done].
  cbn [mbind result_bind]. intros [= <-].
  apply to_var_dict_loop_Ok in Hloop as (new & -> & -> & Hnames & Hnd & _).
  simpl. by rewrite OrderedDict_NoDup.
Qed.

Lemma to_var_dict_clean (entries : list (string * tf_Variable)) :
  Forall (λ e, name e.2 = e.1 +:+ ":0") entries →
  NoDup entries.*1 →
  to_var_dict ((λ e, IsVariable e.2) <$> entries) = Ok entries.
Proof.
  intros Hnames Hnd.
  rewrite <-(app_nil_r (_ <$> entries)), to_var_dict_prefix by done.
  simpl. by rewrite OrderedDict_NoDup.
Qed.

(** X3.  Whenever [to_var_dict] returns a mapping, its items are in
    one-to-one correspondence with the input, in order: the input is the list
    of the mapping's values, all of them variables; every key is the name of
    its variable without the final [":0"]; the keys are pairwise distinct;
    and the mapping has as many items as the input has elements. *)
Theorem to_var_dict_result (variables : list element)
    (d : list (string * tf_Variable)) :
  to_var_dict variables = Ok d →
  variables = (λ e, IsVariable e.2) <$> d ∧
  Forall (λ e, name e.2 = e.1 +:+ ":0") d ∧
  NoDup d.*1 ∧
  length d = length variables.
Proof.
  intros Hd. destruct (to_var_dict_Ok variables d Hd) as (Hv & Hn & Hnd).
  split; [done|]. split; [done|]. split; [done|].
  by rewrite Hv, length_fmap.
Qed.

Lemma to_var_dict_result_witness :
  [IsVariable {| name := "b:0"; var_id := 0 |};
   IsVariable {| name := "a:0"; var_id := 1 |}] =
  (λ e, IsVariable e.2) <$>
    [("b"%string, {| name := "b:0"; var_id := 0 |});
     ("a"%string, {| name := "a:0"; var_id := 1 |})].
Proof.
  apply (to_var_dict_result
    [IsVariable {| name := "b:0"; var_id := 0 |};
     IsVariable {| name := "a:0"; var_id := 1 |}]
    [("b"%string, {| name := "b:0"; var_id := 0 |});
     ("a"%string, {| name := "a:0"; var_id := 1 |})]).
  vm_compute. reflexivity.
Defined.

Lemma to_var_dict_loop_Raise_app (variables post : list element)
    (tuples : list (string * tf_Variable)) (seen : gset string) e :
  to_var_dict_loop variables tuples seen = Raise e →
  to_var_dict_loop (variables ++ post) tuples seen = Raise e.
Proof.
  revert tuples seen. induction variables as [|v vs IH]; intros tuples seen;
    [done|].
  cbn [app to_var_dict_loop]. destruct v as [x|]; [|done].
  unfold py_typecheck.check_type; cbn [as_Variable mbind result_bind].
  destruct (negb _); [done|]. destruct (decide _); [done|]. apply IH.
Qed.

(** X4.  What follows an element that makes [to_var_dict] fail changes
    nothing: an input that fails keeps failing with the same exception
    however it is extended.  And when an extended input is accepted, the
    input itself is accepted and gives the first items of that mapping. *)
Theorem to_var_dict_extension (variables post : list element) :
  (∀ e, to_var_dict variables = Raise e →
    to_var_dict (variables ++ post) = Raise e) ∧
  (∀ d, to_var_dict (variables ++ post) = Ok d →
    to_var_dict variables = Ok (take (length variables) d)).
Proof.
  split.
  - intros e. unfold to_var_dict.
    destruct (to_var_dict_loop variables [] ∅) as [t|e'] eqn:Hloop;
      [done|].
    cbn [mbind result_bind]. intros [= <-].
    by rewrite (to_var_dict_loop_Raise_app _ post _ _ _ Hloop).
  - intros d Hd. apply to_var_dict_Ok in Hd as (Hv & Hnames & Hnd).
    assert (variables = (λ e, IsVariable e.2) <$> take (length variables) d)
      as Hvs.
    { rewrite fmap_take, <-Hv. by rewrite take_app_length. }
    rewrite Hvs at 1. apply to_var_dict_clean.
    + by apply Forall_take.
    + rewrite fmap_take. eapply sublist_NoDup; [exact Hnd|apply sublist_take].
Qed.

Lemma to_var_dict_extension_witness :
  to_var_dict
    ([IsVariable {| name := "w"; var_id := 0 |}] ++
     [IsVariable {| name := "b:0"; var_id := 1 |}])
  = Raise (unexpected_name "w").
Proof.
  apply (proj1 (to_var_dict_extension
    [IsVariable {| name := "w"; var_id := 0 |}]
    [IsVariable {| name := "b:0"; var_id := 1 |}])).
  reflexivity.
Defined.

(** ** to_odict *)

Lemma to_odict_loop_Ok {V} (iteritems : list (key * V))
    (items r : list (string * V)) :
  to_odict_loop iteritems items = Ok r →
  ∃ l, iteritems = prod_map KStr id <$> l ∧ r = items ++ l.
Proof.
  revert items. induction iteritems as [|[k v] rest IH]; intros items; simpl.
  - intros [= <-]. exists []. by rewrite app_nil_r.
  - destruct k as [s|n]; unfold py_typecheck.check_type; simpl; [|done].
    intros Hloop. apply IH in Hloop as (l & -> & ->).
    exists ((s, v) :: l). by rewrite <-app_assoc.
Qed.

Lemma to_odict_loop_Raise {V} (iteritems : list (key * V))
    (items : list (string * V)) e :
  to_odict_loop iteritems items = Raise e →
  e = TypeError ∧ ∃ n v, (KInt n, v) ∈ iteritems.
Proof.
  revert items. induction iteritems as [|[k v] rest IH]; intros items; simpl;
    [done|].
  destruct k as [s|n]; unfold py_typecheck.check_type; simpl.
  - intros Hloop. apply IH in Hloop as (-> & n & w & Hin).
    split; [done|]. exists n, w. by apply list_elem_of_further.
  - intros [= <-]. split; [done|]. exists n, v. apply list_elem_of_here.
Qed.

(** X5.  Converting a plain dict loses nothing: when [to_odict] returns, the
    items of the result have pairwise distinct keys, there are as many of
    them as the dict has entries, and read back as a dict they are the dict
    that was given. *)
Theorem to_odict_round_trip {V : Type} (d : gmap key V)
    (r : list (key * V)) :
  to_odict (ADict d) = Ok r →
  list_to_map r = d ∧ NoDup r.*1 ∧ length r = size d.
Proof.
  unfold to_odict, py_typecheck.check_type; simpl.
  destruct (to_odict_loop (map_to_list d) []) as [items|e] eqn:Hloop;
    [|done].
  cbn [mbind result_bind]. intros [= <-].
  apply to_odict_loop_Ok in Hloop as (l & Hl & ->). simpl.
  assert (NoDup l.*1) as Hnd.
  { apply KStr_items_keys. rewrite <-Hl. apply NoDup_fst_map_to_list. }
  rewrite OrderedDict_NoDup by by rewrite sorted_Permutation.
  assert (prod_map KStr id <$> python.sorted l ≡ₚ map_to_list d) as Hperm.
  { by rewrite sorted_Permutation, Hl. }
  assert (NoDup (prod_map KStr id <$> python.sorted l).*1) as Hndr.
  { rewrite Hperm. apply NoDup_fst_map_to_list. }
  split; [|split; [done|]].
  - rewrite <-(list_to_map_to_list d). by apply list_to_map_proper.
  - by rewrite Hperm, length_map_to_list.
Qed.

Lemma to_odict_round_trip_witness :
  list_to_map [(KStr "a", 1); (KStr "b", 2)] =
    (<[KStr "b" := 2]> (<[KStr "a" := 1]> ∅) : gmap key Z).
Proof.
  apply (to_odict_round_trip
    (<[KStr "b" := 2]> (<[KStr "a" := 1]> ∅))
    [(KStr "a", 1); (KStr "b", 2)]).
  vm_compute. reflexivity.
Defined.

(** X6.  [to_odict] fails in two cases only, and only with a [TypeError]: on
    a value that is not a dict, and on a plain dict one of whose keys is not a
    string.  In particular it never fails on an [OrderedDict], and on a plain
    dict whose keys are all strings it returns. *)
Theorem to_odict_failure {V : Type} (d : mapping_arg V) (e : exception) :
  to_odict d = Raise e ↔
    e = TypeError ∧
    (d = NotADict ∨ ∃ m n, d = ADict m ∧ is_Some (m !! KInt n)).
Proof.
  split.
  - destruct d as [items|m|]; unfold to_odict, py_typecheck.check_type;
      simpl; [done| |].
    + destruct (to_odict_loop (map_to_list m) []) as [items|e'] eqn:Hloop;
        [done|].
      cbn [mbind result_bind]. intros [= <-].
      apply to_odict_loop_Raise in Hloop as (-> & n & v & Hin).
      split; [done|]. right. exists m, n. split; [done|]. exists v.
      by apply elem_of_map_to_list.
    + intros [= <-]. split; [done|]. by left.
  - intros [-> [->|(m & n & -> & [v Hv])]]; [done|].
    unfold to_odict, py_typecheck.check_type; simpl.
    erewrite to_odict_loop_non_string; [done|].
    by apply elem_of_map_to_list.
Qed.

(** ** check_nested_equal *)

Lemma Forall_Forall2_diag {X} (Q : X → X → Prop) (l : list X) :
  Forall (λ x, Q x x) l → Forall2 Q l l.
Proof. induction 1; by constructor. Qed.

Lemma same_nesting_refl {A} (s : nested A) : same_nesting s s.
Proof.
  induction s as [a|k items IH|entries IH] using nested_induction.
  - constructor.
  - constructor. by apply Forall_Forall2_diag.
  - constructor.
    apply (Forall_Forall2_diag (λ e1 e2, e1.1 = e2.1 ∧ same_nesting e1.2 e2.2)).
    rewrite sorted_Permutation. eapply Forall_impl; [exact IH|]. by intros.
Qed.

Lemma Forall2_flip_on {X Y} (Q : X → Y → Prop) (Q' : Y → X → Prop) xs ys :
  Forall (λ x, ∀ y, Q x y → Q' y x) xs →
  Forall2 Q xs ys → Forall2 Q' ys xs.
Proof.
  intros HP HQ. induction HQ as [|x y xs ys Hq _ IH]; [constructor|].
  inversion HP; subst. constructor; auto.
Qed.

Lemma same_nesting_sym {A B} (s1 : nested A) (s2 : nested B) :
  same_nesting s1 s2 → same_nesting s2 s1.
Proof.
  revert s2. induction s1 as [a|k items1 IH|entries1 IH]
    using nested_induction; intros s2 Hs.
  - inversion Hs. constructor.
  - inversion Hs as [|? ? items2 Hitems|]; subst. constructor.
    eapply Forall2_flip_on; [exact IH|exact Hitems].
  - inversion Hs as [| |? entries2 Hentries]; subst. constructor.
    eapply Forall2_flip_on; [|exact Hentries].
    rewrite sorted_Permutation. eapply Forall_impl; [exact IH|].
    intros e He e2 [Hk Hse]. split; [done|by apply He].
Qed.

Section compare_leaves_outcome.
Context {A : Type} (eq_fn : A → A → bool).
Implicit Types (pairs calls : list (A * A)).

Lemma compare_leaves_outcome pairs :
  (compare_leaves eq_fn pairs).1 `prefix_of` pairs ∧
  ((compare_leaves eq_fn pairs).2 = Ok () ↔
     Forall (λ p, eq_fn p.1 p.2 = true) pairs) ∧
  (∀ a b, (compare_leaves eq_fn pairs).2 = Raise (ValueError_differ a b) →
     eq_fn a b = false ∧ last (compare_leaves eq_fn pairs).1 = Some (a, b)) ∧
  (∀ e, (compare_leaves eq_fn pairs).2 ≠ Raise (StructureError e)).
Proof.
  induction pairs as [|[x y] pairs (IHpre & IHok & IHerr & IHstr)]; simpl.
  - split; [done|]. split; [split; [constructor|done]|]. split; done.
  - destruct (eq_fn x y) eqn:Hxy; simpl.
    + destruct (compare_leaves eq_fn pairs) as [calls r]; simpl in *.
      split; [by apply prefix_cons|]. split; [|split; [|done]].
      * rewrite Forall_cons, <-IHok. simpl. by split; [|intros [_ ?]].
      * intros a b Hr. destruct (IHerr a b Hr) as [Hab Hlast].
        split; [done|]. destruct calls; [done|]. by rewrite last_cons, Hlast.
    + split; [by exists pairs|]. split; [|split; [|done]].
      * split; [done|]. rewrite Forall_cons. simpl. intros [? _]. congruence.
      * intros a b [= <- <-]. done.
Qed.
End compare_leaves_outcome.

Lemma check_nested_equal_Ok {A} (eq_fn : A → A → bool)
    (nested_x nested_y : nested A) :
  (check_nested_equal nested_x nested_y eq_fn).2 = Ok () ↔
    same_nesting nested_x nested_y ∧
    Forall (λ p, eq_fn p.1 p.2 = true)
      (zip (nest.flatten nested_x) (nest.flatten nested_y)).
Proof.
  unfold check_nested_equal.
  destruct (nest.assert_same_structure nested_x nested_y) as [[]|e] eqn:Hs.
  - apply assert_same_structure_Ok in Hs.
    destruct (compare_leaves_outcome eq_fn
      (zip (nest.flatten nested_x) (nest.flatten nested_y)))
      as (_ & Hok & _). rewrite Hok. by split; [|intros [_ ?]].
  - simpl. split; [done|]. intros [Hn _].
    apply assert_same_structure_Ok in Hn. congruence.
Qed.

(** X7.  Whatever the outcome of [check_nested_equal], [eq_fn] was called on
    an initial run of the pairs of corresponding leaves and on nothing else.
    Nothing is raised exactly when the structures have the same nesting and
    every pair satisfies [eq_fn].  A [ValueError] for a pair means that the
    nesting is the same, that [eq_fn] rejected this pair and that it was the
    last one compared.  A structure error means that the nesting differs and
    that nothing was compared. *)
Theorem check_nested_equal_outcome {A} (eq_fn : A → A → bool)
    (nested_x nested_y : nested A) :
  let pairs := zip (nest.flatten nested_x) (nest.flatten nested_y) in
  let outcome := check_nested_equal nested_x nested_y eq_fn in
  outcome.1 `prefix_of` pairs ∧
  (outcome.2 = Ok () ↔
    same_nesting nested_x nested_y ∧
    Forall (λ p, eq_fn p.1 p.2 = true) pairs) ∧
  (∀ a b, outcome.2 = Raise (ValueError_differ a b) →
    same_nesting nested_x nested_y ∧ eq_fn a b = false ∧
    last outcome.1 = Some (a, b)) ∧
  (∀ e, outcome.2 = Raise (StructureError e) →
    ¬ same_nesting nested_x nested_y ∧ outcome.1 = []).
Proof.
  intros pairs outcome.
  split; [|split; [apply check_nested_equal_Ok|]];
    subst outcome; unfold check_nested_equal;
    destruct (nest.assert_same_structure nested_x nested_y) as [[]|e']
      eqn:Hs; fold pairs;
    destruct (compare_leaves_outcome eq_fn pairs) as (Hpre & _ & Herr & Hstr).
  - done.
  - apply prefix_nil.
  - apply assert_same_structure_Ok in Hs. split.
    + intros a b Hr. split; [done|]. by apply Herr.
    + intros e Hr. by apply Hstr in Hr.
  - simpl. split; [done|]. intros e _. split; [|done].
    intros Hn. apply assert_same_structure_Ok in Hn. congruence.
Qed.

Lemma Forall_zip_diag {A} (eq_fn : A → A → bool) (l : list A) :
  Forall (λ a, eq_fn a a = true) l →
  Forall (λ p, eq_fn p.1 p.2 = true) (zip l l).
Proof. induction 1; simpl; by constructor. Qed.

(** X8.  A structure is equal to itself: when [eq_fn] accepts every leaf of a
    structure against itself, [check_nested_equal] of the structure with
    itself compares each leaf once and raises nothing. *)
Theorem check_nested_equal_reflexive {A} (eq_fn : A → A → bool)
    (nested_x : nested A) :
  Forall (λ a, eq_fn a a = true) (nest.flatten nested_x) →
  check_nested_equal nested_x nested_x eq_fn =
    (zip (nest.flatten nested_x) (nest.flatten nested_x), Ok ()).
Proof.
  intros Hrefl. unfold check_nested_equal.
  rewrite (proj2 (assert_same_structure_Ok nested_x nested_x))
    by apply same_nesting_refl.
  apply compare_leaves_agree. by apply Forall_zip_diag.
Qed.

Lemma check_nested_equal_reflexive_witness :
  check_nested_equal
    (Seq PyTuple [Leaf 1; Dict [("b"%string, Leaf 2); ("a"%string, Leaf 3)]])
    (Seq PyTuple [Leaf 1; Dict [("b"%string, Leaf 2); ("a"%string, Leaf 3)]])
    Z.eqb
  = ([(1, 1); (3, 3); (2, 2)], Ok ()).
Proof.
  apply (check_nested_equal_reflexive Z.eqb
    (Seq PyTuple [Leaf 1; Dict [("b"%string, Leaf 2); ("a"%string, Leaf 3)]])).
  repeat constructor.
Defined.

Lemma Forall_zip_flip {A} (eq_fn : A → A → bool) (l k : list A) :
  (∀ a b, eq_fn a b = eq_fn b a) →
  Forall (λ p, eq_fn p.1 p.2 = true) (zip l k) →
  Forall (λ p, eq_fn p.1 p.2 = true) (zip k l).
Proof.
  intros Hsym. revert k. induction l as [|a l IH]; intros [|b k]; simpl;
    intros Hall; try constructor.
  - rewrite Hsym. by inversion Hall.
  - apply IH. by inversion Hall.
Qed.

(** X9.  With a symmetric [eq_fn] the check does not depend on the order of
    its two arguments: it raises nothing on [x] and [y] exactly when it
    raises nothing on [y] and [x]. *)
Theorem check_nested_equal_symmetric {A} (eq_fn : A → A → bool)
    (nested_x nested_y : nested A) :
  (∀ a b, eq_fn a b = eq_fn b a) →
  (check_nested_equal nested_x nested_y eq_fn).2 = Ok () ↔
  (check_nested_equal nested_y nested_x eq_fn).2 = Ok ().
Proof.
  intros Hsym. rewrite !check_nested_equal_Ok.
  split; intros [Hs Hall];
    (split; [by apply same_nesting_sym|by apply Forall_zip_flip]).
Qed.

Lemma check_nested_equal_symmetric_witness :
  (check_nested_equal (Seq PyList [Leaf 4; Leaf 5])
     (Seq PyList [Leaf 4; Leaf 5]) Z.eqb).2 = Ok ().
Proof.
  apply (check_nested_equal_symmetric Z.eqb
    (Seq PyList [Leaf 4; Leaf 5]) (Seq PyList [Leaf 4; Leaf 5])
    Z.eqb_sym).
  reflexivity.
Defined.

(** ** zero_all_if_any_non_finite *)

Lemma zero_all_if_any_non_finite_cases (structure : nested Tensor) :
  (zero_all_if_any_non_finite structure = Ok (structure, 0) ∧
   Forall (λ t, Forall (λ x, ¬ non_finite x) (tensor_data t))
     (nest.flatten structure)) ∨
  (zero_all_if_any_non_finite structure =
     Ok (nest.map_structure tf.zeros_like structure, 1) ∧
   Exists has_non_finite (nest.flatten structure)).
Proof.
  unfold zero_all_if_any_non_finite.
  destruct (nest.flatten structure) as [|t flat] eqn:Hflat.
  - left. split; [done|constructor].
  - cbn [map]. rewrite reduce_logical_and. cbn [mbind result_bind].
    change (tf.reduce_all (tf.is_finite t) :: map _ flat) with
      (map (λ t, tf.reduce_all (tf.is_finite t)) (t :: flat)).
    destruct (forallb id _) eqn:Hall.
    + left. split; [done|]. by apply forallb_leaves_true.
    + right. split; [done|]. by apply forallb_leaves_false.
Qed.

Lemma finite_leaves_no_non_finite (flat : list Tensor) :
  Forall (λ t, Forall (λ x, ¬ non_finite x) (tensor_data t)) flat →
  ¬ Exists has_non_finite flat.
Proof.
  intros Hall Hex. apply forallb_leaves_true in Hall.
  apply forallb_leaves_false in Hex. congruence.
Qed.

Lemma zeros_like_finite (flat : list Tensor) :
  Forall (λ t, Forall (λ x, ¬ non_finite x) (tensor_data t))
    (map tf.zeros_like flat).
Proof.
  induction flat as [|t flat IH]; simpl; [constructor|].
  constructor; [|done]. simpl.
  induction (tensor_data t) as [|x xs IHx]; simpl; [constructor|].
  constructor; [|done]. intros [?|[? ?]]; done.
Qed.


(** X11.  Applying the guard to its own result changes nothing more: the
    structure it returned is returned again, now with flag 0. *)
Theorem zero_all_if_any_non_finite_idempotent (structure out : nested Tensor)
    (flag : Z) :
  zero_all_if_any_non_finite structure = Ok (out, flag) →
  zero_all_if_any_non_finite out = Ok (out, 0).
Proof.
  intros Hcall.
  assert (Forall (λ t, Forall (λ x, ¬ non_finite x) (tensor_data t))
            (nest.flatten out)) as Hfin.
  { destruct (zero_all_if_any_non_finite_cases structure)
      as [[Hc Hfin]|[Hc _]]; rewrite Hc in Hcall;
      injection Hcall as <- <-; [done|].
    rewrite flatten_map_structure. apply zeros_like_finite. }
  destruct (zero_all_if_any_non_finite_cases out) as [[Hc _]|[_ Hex]];
    [done|].
  by apply finite_leaves_no_non_finite in Hex.
Qed.

Lemma zero_all_if_any_non_finite_idempotent_witness :
  zero_all_if_any_non_finite
    (Seq PyList [Leaf {| tensor_shape := [2%nat];
                         tensor_data := [S754_zero false; S754_zero false] |}])
  = Ok (Seq PyList
          [Leaf {| tensor_shape := [2%nat];
                   tensor_data := [S754_zero false; S754_zero false] |}], 0).
Proof.
  apply (zero_all_if_any_non_finite_idempotent
    (Seq PyList [Leaf {| tensor_shape := [2%nat];
                         tensor_data := [S754_infinity true;
                                         S754_finite false 1 0] |}])
    (Seq PyList [Leaf {| tensor_shape := [2%nat];
                         tensor_data := [S754_zero false; S754_zero false] |}])
    1).
  reflexivity.
Defined.


(** ** metrics_sum *)

Lemma app_string_cancel_r (s1 s2 t : string) :
  s1 +:+ t = s2 +:+ t → s1 = s2.
Proof.
  revert s2. induction s1 as [|c s1 IH]; intros [|c2 s2] Heq.
  - done.
  - apply (f_equal String.length) in Heq.
    rewrite !length_app_string in Heq. simpl in Heq. lia.
  - apply (f_equal String.length) in Heq.
    rewrite !length_app_string in Heq. simpl in Heq. lia.
  - change (String c (s1 +:+ t) = String c2 (s2 +:+ t)) in Heq.
    injection Heq as -> Heq. f_equal. by apply IH.
Qed.

Lemma full_name_inj (s1 s2 n : string) :
  variables.full_name s1 n = variables.full_name s2 n → s1 = s2.
Proof.
  unfold variables.full_name, variables.join.
  destruct (decide (s1 = "")) as [->|Hs1], (decide (s2 = "")) as [->|Hs2];
    [done|..].
  - intros Heq. apply (f_equal String.length) in Heq.
    rewrite !length_app_string in Heq. simpl in Heq. lia.
  - intros Heq. apply (f_equal String.length) in Heq.
    rewrite !length_app_string in Heq. simpl in Heq. lia.
  - apply app_string_cancel_r.
Qed.

Lemma prefix_longer (s : string) : String.prefix (s +:+ "/") s = false.
Proof.
  induction s as [|c s IH]; [done|].
  change (String.prefix (String c (s +:+ "/")) (String c s) = false).
  simpl. by destruct (ascii_dec c c).
Qed.


